(** * net-ops-agent: the interpretation-and-approval loop

    A shallow embedding of [src/tools.py], [src/agent.py] and [src/app.py].

    - Python values are a small dynamically typed universe ([value]).
    - Exceptions are an error monad ([outcome]); the tools run in a
      state-and-error monad ([M]) over a [world] that holds what the
      [random] and [time] modules read and write.
    - Python floats are the rationals they denote, every operation
      followed by rounding to binary64 ([Float64.rnd]).
    - The Streamlit script is one pass over the widgets ([script_pass]),
      executed again on [st.rerun()]. *)

From Stdlib Require Import ZArith QArith Lqa String Ascii List Lia Bool DecimalString.
From Stdlib Require Import Permutation.
Import ListNotations.

Open Scope string_scope.
Open Scope Z_scope.

(** ** Python values and exceptions *)

#[local] Unset Elimination Schemes.
Inductive value : Type :=
| VNone
| VBool (b : bool)
| VInt (z : Z)
| VFloat (q : Q)
| VStr (s : string)
| VList (l : list value)
| VDict (d : list (string * value)).
#[local] Set Elimination Schemes.

(** A [dict] with string keys, in insertion order. *)
Definition dict : Type := list (string * value).

Fixpoint dict_get (d : dict) (k : string) : option value :=
  match d with
  | [] => None
  | (k', v) :: d' => if String.eqb k' k then Some v else dict_get d' k
  end.

Definition dict_has (d : dict) (k : string) : bool :=
  match dict_get d k with Some _ => true | None => false end.

(** Truth value of an object, as [if x:] and [x if c else y] test it. *)
Definition truthy (v : value) : bool :=
  match v with
  | VNone => false
  | VBool b => b
  | VInt z => negb (z =? 0)
  | VFloat q => negb (Qnum q =? 0)
  | VStr s => negb (String.eqb s "")
  | VList l => match l with [] => false | _ => true end
  | VDict d => match d with [] => false | _ => true end
  end.

(** [type(v).__name__] *)
Definition type_name (v : value) : string :=
  match v with
  | VNone => "NoneType"
  | VBool _ => "bool"
  | VInt _ => "int"
  | VFloat _ => "float"
  | VStr _ => "str"
  | VList _ => "list"
  | VDict _ => "dict"
  end.

(** An instance of [Exception]: its class and [str(e)]. *)
Record exn : Type := Exn { exn_class : string; exn_str : string }.

Definition TypeError (msg : string) : exn := Exn "TypeError" msg.
Definition ValueError (msg : string) : exn := Exn "ValueError" msg.
Definition IndexError (msg : string) : exn := Exn "IndexError" msg.

Inductive outcome (A : Type) : Type :=
| Return (a : A)
| Raise (e : exn).
Arguments Return {A} a.
Arguments Raise {A} e.

Definition obind {A B : Type} (x : outcome A) (f : A -> outcome B) : outcome B :=
  match x with
  | Return a => f a
  | Raise e => Raise e
  end.

(** [try: body  except Exception as e: handler(e)] *)
Definition try_except {A : Type} (body : outcome A) (handler : exn -> outcome A)
  : outcome A :=
  match body with
  | Return a => Return a
  | Raise e => handler e
  end.

Declare Scope outcome_scope.
Delimit Scope outcome_scope with outcome.
Notation "x <- c ;; k" := (obind c (fun x => k))
  (at level 61, c at next level, right associativity) : outcome_scope.

Definition dq : string := String "034"%char EmptyString.
Definition nl : string := String "010"%char EmptyString.

Definition str_of_nat (n : nat) : string := NilZero.string_of_uint (Nat.to_uint n).

(** ** binary64 arithmetic

    A finite double is modelled by the rational it denotes.  [rnd] is
    rounding to nearest, ties to even, with 53 bits of precision and the
    subnormal exponent floor; overflow to infinity is not modelled. *)
Module Float64.

Definition prec : Z := 53.
Definition emin : Z := -1074.

(** [n / d] rounded to the nearest integer, ties to even ([0 < d]). *)
Definition rne_div (n d : Z) : Z :=
  let q := n / d in
  let r := n mod d in
  match 2 * r ?= d with
  | Lt => q
  | Gt => q + 1
  | Eq => if Z.even q then q else q + 1
  end.

(** [floor (log2 (n / d))] for [0 < n] and [0 < d]. *)
Definition ilog2 (n d : Z) : Z :=
  let j := Z.log2 n - Z.log2 d in
  let below := if 0 <=? j then n <? d * 2 ^ j else n * 2 ^ (- j) <? d in
  if below then j - 1 else j.

Definition rnd_pos (n d : Z) : Q :=
  let e := Z.max (ilog2 n d - (prec - 1)) emin in
  if 0 <=? e
  then inject_Z (rne_div n (d * 2 ^ e) * 2 ^ e)
  else Qred (Qmake (rne_div (n * 2 ^ (- e)) d) (Z.to_pos (2 ^ (- e)))).

Definition rnd (q : Q) : Q :=
  match Qnum q with
  | Z0 => 0%Q
  | Zpos _ => rnd_pos (Qnum q) (Zpos (Qden q))
  | Zneg _ => Qopp (rnd_pos (- Qnum q) (Zpos (Qden q)))
  end.

Definition fadd (x y : Q) : Q := rnd (x + y).
Definition fsub (x y : Q) : Q := rnd (x - y).
Definition fmul (x y : Q) : Q := rnd (x * y).

(** [round(x, ndigits)] for [ndigits >= 0]: the decimal with [ndigits]
    places nearest to the exact value of [x] (ties to even), read back as
    the nearest double. *)
Definition round_ndigits (x : Q) (ndigits : nat) : Q :=
  let p := 10 ^ Z.of_nat ndigits in
  rnd (Qmake (rne_div (Qnum x * p) (Zpos (Qden x))) (Z.to_pos p)).

End Float64.

(** ** The world the tools act on *)

(** Broken-down local time, as [time.strftime] reads it. *)
Record tm : Type := Tm {
  tm_year : nat; tm_mon : nat; tm_mday : nat;
  tm_hour : nat; tm_min : nat; tm_sec : nat
}.

Record world : Type := World {
  entropy : nat -> N;   (* raw outputs of the random generator, in order *)
  drawn : nat;          (* how many of them were consumed *)
  slept : list Q;       (* arguments of time.sleep, oldest first *)
  localtime : tm        (* the wall clock *)
}.

(** Computations that read and write the world and may raise. *)
Definition M (A : Type) : Type := world -> outcome A * world.

Definition ret {A : Type} (a : A) : M A := fun w => (Return a, w).
Definition throw {A : Type} (e : exn) : M A := fun w => (Raise e, w).
Definition bind {A B : Type} (m : M A) (f : A -> M B) : M B :=
  fun w =>
    match m w with
    | (Return a, w') => f a w'
    | (Raise e, w') => (Raise e, w')
    end.
Definition lift {A : Type} (x : outcome A) : M A := fun w => (x, w).

(** [try: body  except Exception as e: handler(e)], effects of [body] kept. *)
Definition try_exceptM {A : Type} (body : M A) (handler : exn -> M A) : M A :=
  fun w =>
    match body w with
    | (Return a, w') => (Return a, w')
    | (Raise e, w') => handler e w'
    end.

Declare Scope M_scope.
Delimit Scope M_scope with M.
Notation "x <- c ;; k" := (bind c (fun x => k))
  (at level 61, c at next level, right associativity) : M_scope.
Notation "c ;;; k" := (bind c (fun _ => k))
  (at level 61, right associativity) : M_scope.

(** ** The [random] and [time] modules

    The generator is any sequence of raw outputs: quantifying over
    [entropy] quantifies over every outcome of the randomness.  Each
    library call is modelled as consuming one raw output, which it maps
    onto the range its documentation promises; every value of that range
    is the image of some raw output. *)

Definition next_raw : M N :=
  fun w => (Return (entropy w (drawn w)),
            World (entropy w) (S (drawn w)) (slept w) (localtime w)).

(** [random._randbelow(n)]: an integer in [[0, n)]. *)
Definition randbelow (n : Z) : M Z :=
  (r <- next_raw ;; ret (Z.of_N r mod n))%M.

(** [random.choice(seq)] *)
Definition random_choice {A : Type} (seq : list A) : M A :=
  match seq with
  | [] => throw (IndexError "Cannot choose from an empty sequence")
  | _ =>
    (i <- randbelow (Z.of_nat (length seq)) ;;
     match nth_error seq (Z.to_nat i) with
     | Some x => ret x
     | None => throw (IndexError "list index out of range")
     end)%M
  end.

(** [random.randint(a, b)]: an integer [N] with [a <= N <= b]. *)
Definition random_randint (a b : Z) : M Z :=
  if b <? a
  then throw (ValueError "empty range for randrange()")
  else (i <- randbelow (b - a + 1) ;; ret (a + i))%M.

(** [random.random()]: a multiple of [2^-53] in [[0.0, 1.0)]. *)
Definition random_random : M Q :=
  (r <- next_raw ;; ret (Qred (Qmake (Z.of_N r mod 2 ^ 53) (Z.to_pos (2 ^ 53)))))%M.

(** [random.uniform(a, b)] is [a + (b - a) * self.random()]. *)
Definition random_uniform (a b : Q) : M Q :=
  (r <- random_random ;;
   ret (Float64.fadd a (Float64.fmul (Float64.fsub b a) r)))%M.

(** [time.sleep(secs)] *)
Definition time_sleep (secs : Q) : M unit :=
  fun w => (Return tt, World (entropy w) (drawn w) (slept w ++ [secs])%list (localtime w)).

Definition pad2 (n : nat) : string :=
  if Nat.ltb n 10 then "0" ++ str_of_nat n else str_of_nat n.

(** [time.strftime("%Y-%m-%d %H:%M:%S")]: the C library prints [%Y] as the
    year in decimal, without padding, and the other fields with two
    digits. *)
Definition time_strftime : M string :=
  fun w =>
    let t := localtime w in
    (Return (str_of_nat (tm_year t) ++ "-" ++ pad2 (tm_mon t) ++ "-" ++ pad2 (tm_mday t)
             ++ " " ++ pad2 (tm_hour t) ++ ":" ++ pad2 (tm_min t) ++ ":"
             ++ pad2 (tm_sec t)), w).

(** ** Operators of the language used by the tools *)

(** [x + d] for an [int] right operand. *)
Definition py_add_int (x : value) (d : Z) : outcome value :=
  match x with
  | VInt z => Return (VInt (z + d))
  | VBool b => Return (VInt ((if b then 1 else 0) + d))
  | VFloat q => Return (VFloat (Float64.fadd q (inject_Z d)))
  | VStr _ =>
    Raise (TypeError ("can only concatenate str (not " ++ dq ++ "int" ++ dq ++ ") to str"))
  | VList _ =>
    Raise (TypeError ("can only concatenate list (not " ++ dq ++ "int" ++ dq ++ ") to list"))
  | _ =>
    Raise (TypeError ("unsupported operand type(s) for +: '" ++ type_name x
                      ++ "' and 'int'"))
  end.

(** [max(a, x)] for an [int] first argument: [x] when [x > a], else [a]. *)
Definition py_max_int (a : Z) (x : value) : outcome value :=
  match x with
  | VInt z => Return (if a <? z then VInt z else VInt a)
  | VBool b => Return (if a <? (if b then 1 else 0) then VBool b else VInt a)
  | VFloat q => Return (if Qlt_le_dec (inject_Z a) q then VFloat q else VInt a)
  | _ =>
    Raise (TypeError ("'>' not supported between instances of '" ++ type_name x
                      ++ "' and 'int'"))
  end.

(** ** tools.py *)

Definition statuses : list string := ["Running"; "Failed"; "Degraded"].

Definition get_service_health (service_name : value) : M value :=
  (status <- random_choice statuses ;;
   time_sleep (1 # 2) ;;;
   cpu <- random_uniform 5 95 ;;
   mem <- random_randint 128 4096 ;;
   ret (VDict [("service", service_name);
               ("status", VStr status);
               ("cpu_usage_percent", VFloat (Float64.round_ndigits cpu 2));
               ("memory_usage_mb", VInt mem)]))%M.

Definition restart_service (service_name force : value) : M value :=
  (let duration := if truthy force then 2%Q else 1%Q in
   time_sleep duration ;;;
   timestamp <- time_strftime ;;
   ret (VDict [("service", service_name);
               ("action", VStr "restart");
               ("mode", VStr (if truthy force then "force" else "graceful"));
               ("status", VStr "Success");
               ("timestamp", VStr timestamp)]))%M.

Definition scale_cluster (cluster_id replicas : value) : M value :=
  (time_sleep 1 ;;;
   d <- random_randint (-2) 2 ;;
   shifted <- lift (py_add_int replicas d) ;;
   previous <- lift (py_max_int 1 shifted) ;;
   ret (VDict [("cluster_id", cluster_id);
               ("previous_replicas", previous);
               ("current_replicas", replicas);
               ("status", VStr "Scaled")]))%M.

(** ** agent.py: the reasoning-engine boundary

    The engine (the [google.generativeai] model) is an external
    collaborator.  Its client is a value whose every operation either
    yields a result or raises. *)
Module Gemini.

Record function_call : Type := FunctionCall {
  name : string;
  args : dict
}.

(** [part.function_call] is falsy ([None]) or a structured call. *)
Record part : Type := Part { part_function_call : option function_call }.

Record response : Type := Response {
  parts : outcome (list part);     (* response.parts *)
  text : outcome string            (* response.text, raises without text *)
}.

Record chat_session : Type := ChatSession {
  send_message : string -> outcome response
}.

Record generative_model : Type := GenerativeModel {
  start_chat : outcome chat_session
}.

End Gemini.

Inductive role : Type := user | assistant.

(** [{"role": ..., "content": ...}]; the content is a [str] or a tool result. *)
Record turn : Type := Turn { turn_role : role; content : value }.

(** [{"type": "action", "tool": ..., "args": ...}] *)
Record action : Type := Action { tool : string; tool_args : dict }.

(** The dictionary [analyze_request] returns, by its ["type"]. *)
Inductive decision : Type :=
| DAction (a : action)
| DChat (response : string).

(** [for part in response.parts: if part.function_call: return ...] *)
Fixpoint first_function_call (ps : list Gemini.part) : option Gemini.function_call :=
  match ps with
  | [] => None
  | p :: ps' =>
    match Gemini.part_function_call p with
    | Some fc => Some fc
    | None => first_function_call ps'
    end
  end.

(** The body of the [try] block of [analyze_request]. *)
Definition interact (model : Gemini.generative_model) (user_input : string)
  : outcome decision :=
  (chat <- Gemini.start_chat model ;;
   response <- Gemini.send_message chat user_input ;;
   ps <- Gemini.parts response ;;
   match first_function_call ps with
   | Some fc => Return (DAction (Action (Gemini.name fc) (Gemini.args fc)))
   | None => t <- Gemini.text response ;; Return (DChat t)
   end)%outcome.

Definition analyze_request (model : Gemini.generative_model) (user_input : string)
  (chat_history : list turn) : outcome decision :=
  try_except (interact model user_input)
    (fun e => Return (DChat ("Error interacting with Agent: " ++ exn_str e))).

(** The places of the engine interaction where an exception can start:
    opening the chat, sending the message, reading the parts, and reading
    the text when no part carries a structured call. *)
Inductive engine_fails (model : Gemini.generative_model) (user_input : string)
  (e : exn) : Prop :=
| fails_start_chat :
    Gemini.start_chat model = Raise e ->
    engine_fails model user_input e
| fails_send_message (chat : Gemini.chat_session) :
    Gemini.start_chat model = Return chat ->
    Gemini.send_message chat user_input = Raise e ->
    engine_fails model user_input e
| fails_parts (chat : Gemini.chat_session) (response : Gemini.response) :
    Gemini.start_chat model = Return chat ->
    Gemini.send_message chat user_input = Return response ->
    Gemini.parts response = Raise e ->
    engine_fails model user_input e
| fails_text (chat : Gemini.chat_session) (response : Gemini.response)
    (ps : list Gemini.part) :
    Gemini.start_chat model = Return chat ->
    Gemini.send_message chat user_input = Return response ->
    Gemini.parts response = Return ps ->
    first_function_call ps = None ->
    Gemini.text response = Raise e ->
    engine_fails model user_input e.

(** No part carries a structured call. *)
Definition no_function_call (ps : list Gemini.part) : Prop :=
  Forall (fun p => Gemini.part_function_call p = None) ps.

(** ** agent.py: the tool registry *)

(** A function object: its name, its parameters with their defaults, and
    its body over the bound parameters. *)
Record py_function : Type := PyFunction {
  fn_name : string;
  fn_params : list (string * option value);
  fn_body : dict -> M value
}.

(** The value a bound parameter has in the body. *)
Definition local (locals : dict) (p : string) : value :=
  match dict_get locals p with Some v => v | None => VNone end.

Definition is_param (f : py_function) (k : string) : bool :=
  existsb (fun p => String.eqb (fst p) k) (fn_params f).

(** The first keyword that names no parameter. *)
Definition unexpected_keyword (f : py_function) (kwargs : dict) : option string :=
  option_map fst (find (fun kv => negb (is_param f (fst kv))) kwargs).

(** Parameters without default that [kwargs] leaves unbound. *)
Definition missing_required (f : py_function) (kwargs : dict) : list string :=
  map fst
    (filter (fun p => match snd p with
                      | None => negb (dict_has kwargs (fst p))
                      | Some _ => false
                      end) (fn_params f)).

Definition quoted (s : string) : string := "'" ++ s ++ "'".

Fixpoint name_list (names : list string) : string :=
  match names with
  | [] => ""
  | [a] => quoted a
  | [a; b] => quoted a ++ " and " ++ quoted b
  | a :: rest =>
    quoted a ++ ", " ++
    (match rest with
     | [b; c] => quoted b ++ ", and " ++ quoted c
     | _ => name_list rest
     end)
  end.

Definition missing_message (f : py_function) (names : list string) : string :=
  fn_name f ++ "() missing " ++ str_of_nat (length names)
  ++ " required positional argument"
  ++ (if Nat.eqb (length names) 1 then "" else "s") ++ ": " ++ name_list names.

Definition bound_value (kwargs : dict) (p : string * option value) : string * value :=
  (fst p,
   match dict_get kwargs (fst p) with
   | Some v => v
   | None => match snd p with Some dflt => dflt | None => VNone end
   end).

(** Binding of a call of [f] with the keyword arguments [kwargs]: keywords are matched first, then the
    parameters left without a value are reported. *)
Definition bind_kwargs (f : py_function) (kwargs : dict) : outcome dict :=
  match unexpected_keyword f kwargs with
  | Some k =>
    Raise (TypeError (fn_name f ++ "() got an unexpected keyword argument "
                      ++ quoted k))
  | None =>
    match missing_required f kwargs with
    | [] => Return (map (bound_value kwargs) (fn_params f))
    | names => Raise (TypeError (missing_message f names))
    end
  end.

(** The call of [f] with the keyword arguments [kwargs]. *)
Definition call_kwargs (f : py_function) (kwargs : dict) : M value :=
  (locals <- lift (bind_kwargs f kwargs) ;; fn_body f locals)%M.

Definition get_service_health_fn : py_function :=
  PyFunction "get_service_health" [("service_name", None)]
    (fun l => get_service_health (local l "service_name")).

Definition restart_service_fn : py_function :=
  PyFunction "restart_service" [("service_name", None); ("force", Some (VBool false))]
    (fun l => restart_service (local l "service_name") (local l "force")).

Definition scale_cluster_fn : py_function :=
  PyFunction "scale_cluster" [("cluster_id", None); ("replicas", None)]
    (fun l => scale_cluster (local l "cluster_id") (local l "replicas")).

Definition tool_map : list (string * py_function) :=
  [("get_service_health", get_service_health_fn);
   ("restart_service", restart_service_fn);
   ("scale_cluster", scale_cluster_fn)].

Fixpoint tool_lookup (m : list (string * py_function)) (k : string)
  : option py_function :=
  match m with
  | [] => None
  | (k', f) :: m' => if String.eqb k' k then Some f else tool_lookup m' k
  end.

Definition error_result (msg : string) : value := VDict [("error", VStr msg)].

Definition execute_tool (tool_name : string) (tool_args : dict) : M value :=
  match tool_lookup tool_map tool_name with
  | None => ret (error_result ("Unknown tool: " ++ tool_name))
  | Some func =>
    try_exceptM (call_kwargs func tool_args)
      (fun e => ret (error_result ("Tool execution failed: " ++ exn_str e)))
  end.

(** ** app.py: the Streamlit script

    Streamlit executes the script from top to bottom once per operator
    interaction.  During that pass the widget the operator touched
    reports it ([st.button] returns [True], [st.chat_input] returns the
    text); every other widget reports nothing. *)

Inductive interaction : Type :=
| NoInteraction
| Click (label : string)
| Submit (prompt : string).

(** What happens outside the script during one pass: the operator's
    interaction and the behaviour of the reasoning engine. *)
Record event : Type := Event {
  operator : interaction;
  model : Gemini.generative_model
}.

Definition st_button (label : string) (i : interaction) : bool :=
  match i with
  | Click l => String.eqb l label
  | _ => false
  end.

Definition st_chat_input (i : interaction) : option string :=
  match i with
  | Submit prompt => Some prompt
  | _ => None
  end.

Definition clear_label : string := "Clear Chat History".
Definition approve_label : string := "✅ Approve".
Definition reject_label : string := "❌ Reject".

(** [st.session_state] *)
Record session_state : Type := SessionState {
  messages : list turn;
  pending_action : option action
}.

(** The initialisation block: a key that is absent gets its default. *)
Definition initialise (st : option session_state) : session_state :=
  match st with
  | None => SessionState [] None
  | Some s => s
  end.

(** The session, the world around it, and a history of the calls of
    [execute_tool] made so far (a ghost variable: nothing reads it). *)
Record app : Type := App {
  session : session_state;
  env : world;
  executed : list (string * dict)
}.

Definition start (w : world) : app := App (initialise None) w [].

(** How a block of the script ends. *)
Inductive flow : Type :=
| Continue           (* falls through to the next block *)
| Rerun              (* st.rerun(): the pass stops, the script runs again *)
| Crash (e : exn).   (* an exception leaves the script *)

Definition text_turn (r : role) (s : string) : turn := Turn r (VStr s).

Definition executed_notice (a : action) : string :=
  "Executed `" ++ tool a ++ "`." ++ nl ++ nl ++ "Result:".

Definition rejected_notice (a : action) : string :=
  "❌ Action `" ++ tool a ++ "` was rejected by the operator.".

(** Sidebar: the reset button. *)
Definition sidebar (ev : event) (a : app) : flow * app :=
  if st_button clear_label (operator ev)
  then (Rerun, App (SessionState [] None) (env a) (executed a))
  else (Continue, a).

(** Safety widget: shown only while a proposal is pending.  The slot holds
    [None] or the dictionary of an action decision, which has three keys
    and so is truthy.  The approve branch ends in [st.rerun()], so the
    reject button is consulted only when approve was not clicked. *)
Definition safety_widget (ev : event) (a : app) : flow * app :=
  match pending_action (session a) with
  | None => (Continue, a)
  | Some act =>
    if st_button approve_label (operator ev) then
      match execute_tool (tool act) (tool_args act) (env a) with
      | (Raise e, w') =>
        (Crash e, App (session a) w' (executed a ++ [(tool act, tool_args act)])%list)
      | (Return result, w') =>
        (Rerun,
         App (SessionState
                (messages (session a)
                 ++ [text_turn assistant (executed_notice act)]
                 ++ [Turn assistant result])%list
                None)
             w' (executed a ++ [(tool act, tool_args act)])%list)
      end
    else if st_button reject_label (operator ev) then
      (Rerun,
       App (SessionState
              (messages (session a) ++ [text_turn assistant (rejected_notice act)])%list
              None)
           (env a) (executed a))
    else (Continue, a)
  end.

(** Chat input: shown only while no proposal is pending. *)
Definition chat_input (ev : event) (a : app) : flow * app :=
  match pending_action (session a) with
  | Some _ => (Continue, a)
  | None =>
    match st_chat_input (operator ev) with
    | None => (Continue, a)
    | Some prompt =>
      if String.eqb prompt "" then (Continue, a) else
      let msgs := (messages (session a) ++ [text_turn user prompt])%list in
      match analyze_request (model ev) prompt msgs with
      | Raise e => (Crash e, App (SessionState msgs None) (env a) (executed a))
      | Return (DChat response) =>
        (Continue,
         App (SessionState (msgs ++ [text_turn assistant response])%list None)
             (env a) (executed a))
      | Return (DAction act) =>
        (Rerun, App (SessionState msgs (Some act)) (env a) (executed a))
      end
    end
  end.

Definition and_then (b : event -> app -> flow * app) (rest : event -> app -> flow * app)
  (ev : event) (a : app) : flow * app :=
  match b ev a with
  | (Continue, a') => rest ev a'
  | stop => stop
  end.

(** One pass of the script over the session. *)
Definition script_pass : event -> app -> flow * app :=
  and_then sidebar (and_then safety_widget chat_input).

(** The pass that [st.rerun()] starts: no widget reports anything. *)
Definition quiet (ev : event) : event := Event NoInteraction (model ev).

(** One operator event: the pass it triggers and, when that pass asks for
    it, the rerun. *)
Definition run (ev : event) (a : app) : flow * app :=
  match script_pass ev a with
  | (Rerun, a') => script_pass (quiet ev) a'
  | done => done
  end.

Definition step (a : app) (ev : event) : app := snd (run ev a).

(** The session after a sequence of operator events. *)
Definition run_all (evs : list event) (a : app) : app := fold_left step evs a.

Definition pending_count (a : app) : nat :=
  match pending_action (session a) with Some _ => 1%nat | None => 0%nat end.

(** What an idle session does with an event other than a reset. *)
Inductive idle_step (ev : event) (a : app) : flow * app -> Prop :=
| idle_nothing :
    (forall prompt, operator ev = Submit prompt -> prompt = "") ->
    idle_step ev a (Continue, a)
| idle_chat (prompt response : string) :
    operator ev = Submit prompt -> prompt <> "" ->
    analyze_request (model ev) prompt
      (messages (session a) ++ [text_turn user prompt])%list = Return (DChat response) ->
    idle_step ev a
      (Continue,
       App (SessionState (messages (session a) ++ [text_turn user prompt]
                          ++ [text_turn assistant response])%list None)
           (env a) (executed a))
| idle_proposal (prompt : string) (act : action) :
    operator ev = Submit prompt -> prompt <> "" ->
    analyze_request (model ev) prompt
      (messages (session a) ++ [text_turn user prompt])%list = Return (DAction act) ->
    idle_step ev a
      (Continue,
       App (SessionState (messages (session a) ++ [text_turn user prompt])%list
              (Some act))
           (env a) (executed a)).

(** The tool names of the static registry. *)
Definition registered (tool_name : string) : Prop := In tool_name (map fst tool_map).

(** A required parameter of [f] that [kwargs] does not bind. *)
Definition lacks_required (f : py_function) (kwargs : dict) : Prop :=
  exists p, In (p, None) (fn_params f) /\ dict_get kwargs p = None.

(** A keyword of [kwargs] that is no parameter of [f]. *)
Definition has_unrecognized (f : py_function) (kwargs : dict) : Prop :=
  exists k, In k (map fst kwargs) /\ ~ In k (map fst (fn_params f)).

(** ** Sample inputs *)

Definition sample_world : world :=
  World (fun n => (N.of_nat (7 * n + 5) * 1234567890123)%N) 0 [] (Tm 2024 3 9 14 5 7).

(** An engine whose transport times out. *)
Definition timeout_model : Gemini.generative_model :=
  Gemini.GenerativeModel
    (Return (Gemini.ChatSession (fun _ => Raise (Exn "Exception" "API Timeout")))).

Definition health_call : Gemini.function_call :=
  Gemini.FunctionCall "get_service_health" [("service_name", VStr "web-api")].

Definition restart_call : Gemini.function_call :=
  Gemini.FunctionCall "restart_service" [("service_name", VStr "web-api")].

Definition two_calls_response : Gemini.response :=
  Gemini.Response
    (Return [Gemini.Part None; Gemini.Part (Some health_call);
             Gemini.Part (Some restart_call)])
    (Raise (ValueError "Could not convert part.function_call to text.")).

Definition text_response : Gemini.response :=
  Gemini.Response (Return [Gemini.Part None])
    (Return "I can help you with network operations.").

Definition answering (r : Gemini.response) : Gemini.generative_model :=
  Gemini.GenerativeModel (Return (Gemini.ChatSession (fun _ => Return r))).

Definition health_action : action :=
  Action "get_service_health" [("service_name", VStr "web-api")].

(** A session that awaits the operator's decision on [health_action]. *)
Definition awaiting : app :=
  App (SessionState [text_turn user "Check health of web-api"] (Some health_action))
      sample_world [].

(** ** Notions for the further properties *)

(** A wall clock that shows a date of the years 1000 to 9999. *)
Definition calendar_time (t : tm) : Prop :=
  1000 <= Z.of_nat (tm_year t) <= 9999 /\ (1 <= tm_mon t <= 12)%nat
  /\ (1 <= tm_mday t <= 31)%nat /\ (tm_hour t <= 23)%nat
  /\ (tm_min t <= 59)%nat /\ (tm_sec t <= 61)%nat.

(** Values to which an [int] cannot be added. *)
Definition non_numeric (v : value) : Prop :=
  match v with
  | VNone | VStr _ | VList _ | VDict _ => True
  | _ => False
  end.

(** The raw output that the [i]-th next call of the generator returns. *)
Definition raw_at (w : world) (i : nat) : N := entropy w (drawn w + i).

(** The world after [k] raw outputs were drawn and [secs] was slept. *)
Definition after (w : world) (k : nat) (secs : list Q) : world :=
  World (entropy w) (drawn w + k) (slept w ++ secs)%list (localtime w).

(** A generator that returns [raw] on every call. *)
Definition constant_world (raw : N) : world :=
  World (fun _ => raw) 0 [] (Tm 2024 3 9 14 5 7).

(** How many events of a sequence are clicks on the approve button. *)
Definition approval_clicks (evs : list event) : nat :=
  length (filter (fun ev => st_button approve_label (operator ev)) evs).

(** A proposal that names a tool the registry does not have. *)
Definition unknown_action : action := Action "drain_node" [("node", VStr "n1")].

Definition awaiting_unknown : app :=
  App (SessionState [text_turn user "Drain node n1"] (Some unknown_action))
      sample_world [].

(** * Properties *)

(** ** Rounding to binary64 stays between representable integers *)
Section Rounding.
Import Float64.

Lemma rne_div_ge (n d k : Z) : 0 < d -> k * d <= n -> k <= rne_div n d.
Proof.
  intros Hd Hk. unfold rne_div.
  assert (Hq : k <= n / d) by (apply Z.div_le_lower_bound; lia).
  destruct (2 * (n mod d) ?= d); [destruct (Z.even (n / d))| |]; lia.
Qed.

Lemma rne_div_le (n d k : Z) : 0 < d -> n <= k * d -> rne_div n d <= k.
Proof.
  intros Hd Hk. unfold rne_div.
  pose proof (Z.div_mod n d ltac:(lia)) as E.
  pose proof (Z.mod_pos_bound n d Hd) as B.
  assert (Hq : n / d <= k).
  { destruct (Z_le_gt_dec (n / d) k) as [|G]; [assumption|]. nia. }
  destruct (Z.eq_dec (n / d) k) as [Ek|Nk].
  - assert (R0 : n mod d = 0) by nia.
    assert (C : (2 * (n mod d) ?= d) = Lt) by (apply Z.compare_lt_iff; lia).
    rewrite C. lia.
  - destruct (2 * (n mod d) ?= d); [destruct (Z.even (n / d))| |]; lia.
Qed.

Lemma ilog2_lower (n d : Z) :
  0 < n -> 0 < d -> 0 <= ilog2 n d -> d * 2 ^ ilog2 n d <= n.
Proof.
  intros Hn Hd. unfold ilog2.
  set (j := Z.log2 n - Z.log2 d).
  destruct (0 <=? j) eqn:Ej.
  - apply Z.leb_le in Ej.
    destruct (n <? d * 2 ^ j) eqn:Eb.
    + intros Hj.
      pose proof (Z.log2_spec n Hn) as [Ln _].
      pose proof (Z.log2_spec d Hd) as [_ Ld].
      pose proof (Z.log2_nonneg d) as Nd.
      assert (P : 2 ^ Z.succ (Z.log2 d) * 2 ^ (j - 1) = 2 ^ Z.log2 n).
      { rewrite <- Z.pow_add_r by lia. f_equal. unfold j. lia. }
      assert (0 < 2 ^ (j - 1)) by (apply Z.pow_pos_nonneg; lia).
      nia.
    + intros _. apply Z.ltb_ge in Eb. exact Eb.
  - apply Z.leb_gt in Ej.
    destruct (n * 2 ^ (- j) <? d); intros; lia.
Qed.

Lemma rnd_pos_ge (n d k : Z) :
  0 < n -> 0 < d -> 0 <= k < 2 ^ prec -> k * d <= n ->
  (inject_Z k <= rnd_pos n d)%Q.
Proof.
  intros Hn Hd [Hk0 Hk] Hle. unfold rnd_pos.
  set (e := Z.max (ilog2 n d - (prec - 1)) emin).
  destruct (0 <=? e) eqn:Ee.
  - apply Z.leb_le in Ee. rewrite <- Zle_Qle.
    destruct (Z.eq_dec e 0) as [E0|E0].
    + rewrite E0. change (2 ^ 0) with 1. rewrite !Z.mul_1_r.
      apply rne_div_ge; lia.
    + assert (Ej : e = ilog2 n d - (prec - 1)) by (unfold e, emin in *; lia).
      assert (J : 0 <= ilog2 n d) by (unfold prec in *; lia).
      pose proof (ilog2_lower n d Hn Hd J) as L.
      assert (Pe : 2 * 2 ^ (e - 1) = 2 ^ e).
      { rewrite <- Z.pow_succ_r by lia. f_equal. lia. }
      assert (Pe' : 0 < 2 ^ (e - 1)) by (apply Z.pow_pos_nonneg; lia).
      assert (Sp : 2 ^ ilog2 n d = 2 ^ (prec - 1) * 2 ^ e).
      { rewrite <- Z.pow_add_r by (unfold prec; lia). f_equal. lia. }
      assert (M : 2 ^ (prec - 1) <= rne_div n (d * 2 ^ e)).
      { apply rne_div_ge; [nia|]. rewrite Sp in L. nia. }
      assert (2 ^ prec = 2 * 2 ^ (prec - 1)) by reflexivity.
      nia.
  - apply Z.leb_gt in Ee.
    assert (Pe : 0 < 2 ^ (- e)) by (apply Z.pow_pos_nonneg; lia).
    rewrite Qred_correct. unfold Qle. cbn [Qnum Qden inject_Z].
    rewrite Z2Pos.id by lia.
    assert (M : k * 2 ^ (- e) <= rne_div (n * 2 ^ (- e)) d).
    { apply rne_div_ge; [lia|]. nia. }
    lia.
Qed.

Lemma rnd_pos_le (n d k : Z) :
  0 < n -> 0 < d -> 0 <= k < 2 ^ prec -> n <= k * d ->
  (rnd_pos n d <= inject_Z k)%Q.
Proof.
  intros Hn Hd [Hk0 Hk] Hle. unfold rnd_pos.
  set (e := Z.max (ilog2 n d - (prec - 1)) emin).
  destruct (0 <=? e) eqn:Ee.
  - apply Z.leb_le in Ee. rewrite <- Zle_Qle.
    destruct (Z.eq_dec e 0) as [E0|E0].
    + rewrite E0. change (2 ^ 0) with 1. rewrite !Z.mul_1_r.
      apply rne_div_le; lia.
    + exfalso.
      assert (Ej : e = ilog2 n d - (prec - 1)) by (unfold e, emin in *; lia).
      assert (J : 0 <= ilog2 n d) by (unfold prec in *; lia).
      pose proof (ilog2_lower n d Hn Hd J) as L.
      assert (Sp : 2 ^ prec <= 2 ^ ilog2 n d).
      { apply Z.pow_le_mono_r; unfold prec in *; lia. }
      nia.
  - apply Z.leb_gt in Ee.
    assert (Pe : 0 < 2 ^ (- e)) by (apply Z.pow_pos_nonneg; lia).
    rewrite Qred_correct. unfold Qle. cbn [Qnum Qden inject_Z].
    rewrite Z2Pos.id by lia.
    assert (M : rne_div (n * 2 ^ (- e)) d <= k * 2 ^ (- e)).
    { apply rne_div_le; [lia|]. nia. }
    lia.
Qed.

(** A value between two integers that a double represents exactly is
    rounded to a value between them. *)
Lemma rnd_between (q : Q) (lo hi : Z) :
  0 <= lo -> hi < 2 ^ prec ->
  (inject_Z lo <= q)%Q -> (q <= inject_Z hi)%Q ->
  (inject_Z lo <= rnd q)%Q /\ (rnd q <= inject_Z hi)%Q.
Proof.
  intros Hlo Hhi L H. destruct q as [n d]. unfold Qle in L, H.
  cbn [Qnum Qden inject_Z] in L, H. unfold rnd. cbn [Qnum Qden].
  destruct n as [|n|n].
  - unfold Qle. cbn [Qnum Qden inject_Z]. nia.
  - assert (lo <= hi) by nia.
    split; [apply rnd_pos_ge | apply rnd_pos_le]; lia.
  - exfalso. lia.
Qed.

(** [0.1 + 0.2] is the double [0.30000000000000004]. *)
Example binary64_sum :
  fadd (rnd (1 # 10)) (rnd (2 # 10)) = (1351079888211149 # 4503599627370496)%Q.
Proof. vm_compute. reflexivity. Qed.

(** [round(2.675, 2)] is [2.67]: the double nearest to 2.675 lies below it. *)
Example round_half_below :
  round_ndigits (rnd (2675 # 1000)) 2 = rnd (267 # 100).
Proof. vm_compute. reflexivity. Qed.

End Rounding.

(** ** The random module stays in its documented ranges *)
Section RandomModule.
Import Float64.

Lemma random_unit_interval (raw : N) :
  (0 <= Qred (Qmake (Z.of_N raw mod 2 ^ 53) (Z.to_pos (2 ^ 53))) <= 1)%Q.
Proof.
  rewrite Qred_correct.
  pose proof (Z.mod_pos_bound (Z.of_N raw) (2 ^ 53) ltac:(reflexivity)) as B.
  unfold Qle. cbn [Qnum Qden]. rewrite Z2Pos.id by reflexivity. lia.
Qed.

(** [a + (b - a) * r] computed in binary64 stays in [[a, b]]. *)
Lemma uniform_between (a b : Z) (r : Q) :
  0 <= a -> a <= b -> b < 2 ^ prec -> (0 <= r <= 1)%Q ->
  (inject_Z a <= fadd (inject_Z a) (fmul (fsub (inject_Z b) (inject_Z a)) r)
   <= inject_Z b)%Q.
Proof.
  intros Ha Hab Hb [R0 R1]. unfold fadd, fmul, fsub.
  assert (W : (inject_Z (b - a) <= inject_Z b - inject_Z a <= inject_Z (b - a))%Q).
  { unfold Zminus. rewrite inject_Z_plus, inject_Z_opp. split; apply Qle_refl. }
  destruct (rnd_between (inject_Z b - inject_Z a) (b - a) (b - a)
              ltac:(lia) ltac:(lia) (proj1 W) (proj2 W)) as [S1 S2].
  set (s := rnd (inject_Z b - inject_Z a)) in *.
  assert (S0 : (0 <= inject_Z (b - a))%Q) by (rewrite <- (Zle_Qle 0); lia).
  assert (P : (inject_Z 0 <= s * r)%Q /\ (s * r <= inject_Z (b - a))%Q).
  { change (inject_Z 0) with 0%Q. split; nra. }
  destruct (rnd_between (s * r) 0 (b - a) ltac:(lia) ltac:(lia) (proj1 P) (proj2 P))
    as [T1 T2].
  set (t := rnd (s * r)) in *.
  change (inject_Z 0) with 0%Q in T1.
  unfold Zminus in T2. rewrite inject_Z_plus, inject_Z_opp in T2.
  apply rnd_between; try lia; lra.
Qed.

Lemma round_ndigits_between (x : Q) (lo hi : Z) (ndigits : nat) :
  0 <= lo -> hi < 2 ^ prec ->
  (inject_Z lo <= x <= inject_Z hi)%Q ->
  (inject_Z lo <= round_ndigits x ndigits <= inject_Z hi)%Q.
Proof.
  intros Hlo Hhi [L H]. unfold round_ndigits.
  set (p := 10 ^ Z.of_nat ndigits).
  assert (Pp : 0 < p) by (apply Z.pow_pos_nonneg; lia).
  destruct x as [n d]. unfold Qle in L, H. cbn [Qnum Qden inject_Z] in *.
  apply rnd_between; auto; unfold Qle; cbn [Qnum Qden inject_Z];
    rewrite Z2Pos.id by lia; rewrite Z.mul_1_r.
  - apply rne_div_ge; [lia | nia].
  - apply rne_div_le; [lia | nia].
Qed.

Lemma randbelow_range (n : Z) (w : world) :
  0 < n ->
  exists i, randbelow n w =
            (Return i, World (entropy w) (S (drawn w)) (slept w) (localtime w))
            /\ 0 <= i < n.
Proof.
  intros Hn. exists (Z.of_N (entropy w (drawn w)) mod n). split.
  - reflexivity.
  - apply Z.mod_pos_bound. exact Hn.
Qed.

Lemma randint_range (a b : Z) (w : world) :
  a <= b ->
  exists i, random_randint a b w =
            (Return i, World (entropy w) (S (drawn w)) (slept w) (localtime w))
            /\ a <= i <= b.
Proof.
  intros Hab. unfold random_randint.
  destruct (b <? a) eqn:E; [apply Z.ltb_lt in E; lia|].
  destruct (randbelow_range (b - a + 1) w ltac:(lia)) as (i & Hi & Bi).
  exists (a + i). unfold bind. rewrite Hi. split; [reflexivity | lia].
Qed.

Lemma choice_statuses (w : world) :
  exists status, random_choice statuses w =
            (Return status, World (entropy w) (S (drawn w)) (slept w) (localtime w))
            /\ In status ["Running"; "Failed"; "Degraded"].
Proof.
  unfold random_choice, statuses.
  destruct (randbelow_range 3 w ltac:(lia)) as (i & Hi & Bi).
  change (Z.of_nat (length ["Running"; "Failed"; "Degraded"])) with 3.
  unfold bind. rewrite Hi.
  assert (C : i = 0 \/ i = 1 \/ i = 2) by lia.
  destruct C as [-> | [-> | ->]]; cbn; eexists; (split; [reflexivity|]); cbn; tauto.
Qed.

End RandomModule.

(** ** tools.py *)
Section Tools.

(** C8: for every cluster id and every replica count [0 <= replicas],
    [scale_cluster] returns the mapping whose [cluster_id] is the input,
    whose [current_replicas] is the requested count, whose
    [previous_replicas] is at least 1 and whose [status] is ["Scaled"],
    whatever the random generator yields. *)
Theorem scale_cluster_result (cluster_id : string) (replicas : Z) (w : world) :
  0 <= replicas ->
  exists previous w',
    scale_cluster (VStr cluster_id) (VInt replicas) w =
      (Return (VDict [("cluster_id", VStr cluster_id);
                      ("previous_replicas", VInt previous);
                      ("current_replicas", VInt replicas);
                      ("status", VStr "Scaled")]), w')
    /\ 1 <= previous.
Proof.
  intros _. unfold scale_cluster, bind, time_sleep.
  destruct (randint_range (-2) 2
              (World (entropy w) (drawn w) (slept w ++ [1%Q]) (localtime w))
              ltac:(lia)) as (d & Hd & Bd).
  rewrite Hd. cbn [lift py_add_int py_max_int ret].
  destruct (1 <? replicas + d) eqn:E.
  - apply Z.ltb_lt in E. eexists _, _. split; [reflexivity | lia].
  - eexists _, _. split; [reflexivity | lia].
Qed.

Lemma scale_cluster_result_witness :
  0 <= 5 /\
  exists previous w',
    scale_cluster (VStr "prod") (VInt 5) sample_world =
      (Return (VDict [("cluster_id", VStr "prod");
                      ("previous_replicas", VInt previous);
                      ("current_replicas", VInt 5);
                      ("status", VStr "Scaled")]), w')
    /\ 1 <= previous.
Proof.
  split; [lia | apply (scale_cluster_result "prod" 5 sample_world); lia].
Defined.

(** C10: for [0 <= replicas] the [previous_replicas] that [scale_cluster]
    returns is [max(1, replicas + d)] for an integer [-2 <= d <= 2], and so
    differs from the requested count by at most 2. *)
Theorem scale_cluster_previous (cluster_id : string) (replicas : Z) (w : world) :
  0 <= replicas ->
  exists d previous w',
    -2 <= d <= 2
    /\ scale_cluster (VStr cluster_id) (VInt replicas) w =
      (Return (VDict [("cluster_id", VStr cluster_id);
                      ("previous_replicas", VInt previous);
                      ("current_replicas", VInt replicas);
                      ("status", VStr "Scaled")]), w')
    /\ previous = Z.max 1 (replicas + d)
    /\ Z.abs (previous - replicas) <= 2.
Proof.
  intros Hr. unfold scale_cluster, bind, time_sleep.
  destruct (randint_range (-2) 2
              (World (entropy w) (drawn w) (slept w ++ [1%Q]) (localtime w))
              ltac:(lia)) as (d & Hd & Bd).
  rewrite Hd. cbn [lift py_add_int py_max_int ret].
  exists d.
  destruct (1 <? replicas + d) eqn:E.
  - apply Z.ltb_lt in E. eexists _, _. repeat split; try reflexivity; lia.
  - apply Z.ltb_ge in E. eexists _, _. repeat split; try reflexivity; lia.
Qed.

Lemma scale_cluster_previous_witness :
  0 <= 0 /\
  exists d previous w',
    -2 <= d <= 2
    /\ scale_cluster (VStr "prod") (VInt 0) sample_world =
      (Return (VDict [("cluster_id", VStr "prod");
                      ("previous_replicas", VInt previous);
                      ("current_replicas", VInt 0);
                      ("status", VStr "Scaled")]), w')
    /\ previous = Z.max 1 (0 + d)
    /\ Z.abs (previous - 0) <= 2.
Proof.
  split; [lia | apply (scale_cluster_previous "prod" 0 sample_world); lia].
Defined.

(** C9: for every service name and every outcome of the randomness,
    [get_service_health] returns the mapping whose [service] is the input,
    whose [status] is one of Running, Failed, Degraded, whose
    [cpu_usage_percent] lies in [[5.0, 95.0]] and whose [memory_usage_mb]
    lies in [[128, 4096]]. *)
Theorem get_service_health_result (service_name : string) (w : world) :
  exists status cpu mem w',
    get_service_health (VStr service_name) w =
      (Return (VDict [("service", VStr service_name);
                      ("status", VStr status);
                      ("cpu_usage_percent", VFloat cpu);
                      ("memory_usage_mb", VInt mem)]), w')
    /\ In status ["Running"; "Failed"; "Degraded"]
    /\ (5 <= cpu <= 95)%Q
    /\ 128 <= mem <= 4096.
Proof.
  unfold get_service_health.
  destruct (choice_statuses w) as (status & Hs & Is).
  unfold bind at 1. rewrite Hs.
  unfold bind at 1. unfold time_sleep at 1. cbn [entropy drawn slept localtime].
  unfold bind at 1. unfold random_uniform, random_random, bind at 1 2, next_raw, ret at 1 2.
  cbn [entropy drawn slept localtime].
  set (w2 := World _ _ _ _).
  destruct (randint_range 128 4096 w2 ltac:(lia)) as (mem & Hm & Bm).
  unfold bind. rewrite Hm. unfold ret.
  eexists status, _, mem, _. split; [reflexivity|].
  split; [exact Is|]. split; [|exact Bm].
  apply (round_ndigits_between _ 5 95 2); [lia | reflexivity |].
  apply (uniform_between 5 95); [lia | lia | reflexivity |].
  apply random_unit_interval.
Qed.

(** Every tool sleeps once, whatever else it does. *)
Lemma get_service_health_sleeps (v : value) (w : world) :
  length (slept (snd (get_service_health v w))) = S (length (slept w)).
Proof.
  unfold get_service_health.
  destruct (choice_statuses w) as (status & Hs & _).
  unfold bind at 1. rewrite Hs.
  unfold random_uniform, random_random, random_randint, randbelow, bind, next_raw,
    time_sleep, ret.
  cbn. rewrite length_app. cbn. lia.
Qed.

Lemma restart_service_sleeps (v f : value) (w : world) :
  length (slept (snd (restart_service v f w))) = S (length (slept w)).
Proof.
  unfold restart_service, bind, time_sleep, time_strftime, ret.
  cbn. rewrite length_app. cbn. lia.
Qed.

Lemma scale_cluster_sleeps (c r : value) (w : world) :
  length (slept (snd (scale_cluster c r w))) = S (length (slept w)).
Proof.
  unfold scale_cluster, bind, time_sleep.
  destruct (randint_range (-2) 2
              (World (entropy w) (drawn w) (slept w ++ [1%Q]) (localtime w))
              ltac:(lia)) as (d & Hd & _).
  rewrite Hd. unfold lift, ret.
  destruct (py_add_int r d) as [s|e]; [destruct (py_max_int 1 s)|];
    cbn; rewrite length_app; cbn; lia.
Qed.

End Tools.

(** ** agent.py: the interpreter *)
Section Interpreter.

(** [engine_fails] lists every way the [try] block can raise. *)
Lemma interact_raises_iff (model : Gemini.generative_model) (user_input : string)
  (e : exn) :
  interact model user_input = Raise e <-> engine_fails model user_input e.
Proof.
  unfold interact, obind. split.
  - destruct (Gemini.start_chat model) as [chat|e0] eqn:E1.
    2:{ intros [= ->]. now apply fails_start_chat. }
    destruct (Gemini.send_message chat user_input) as [response|e0] eqn:E2.
    2:{ intros [= ->]. now apply (fails_send_message _ _ _ chat). }
    destruct (Gemini.parts response) as [ps|e0] eqn:E3.
    2:{ intros [= ->]. now apply (fails_parts _ _ _ chat response). }
    destruct (first_function_call ps) as [fc|] eqn:E4; [discriminate|].
    destruct (Gemini.text response) as [t|e0] eqn:E5; [discriminate|].
    intros [= ->]. now apply (fails_text _ _ _ chat response ps).
  - intros [H1 | chat H1 H2 | chat response H1 H2 H3
            | chat response ps H1 H2 H3 H4 H5].
    + now rewrite H1.
    + now rewrite H1, H2.
    + now rewrite H1, H2, H3.
    + now rewrite H1, H2, H3, H4, H5.
Qed.

(** [analyze_request] returns a decision for every engine. *)
Lemma analyze_request_total (model : Gemini.generative_model) (user_input : string)
  (chat_history : list turn) :
  exists d, analyze_request model user_input chat_history = Return d.
Proof.
  unfold analyze_request, try_except.
  destruct (interact model user_input); eexists; reflexivity.
Qed.

Lemma first_function_call_app (before after : list Gemini.part) (p : Gemini.part)
  (fc : Gemini.function_call) :
  no_function_call before ->
  Gemini.part_function_call p = Some fc ->
  first_function_call (before ++ p :: after) = Some fc.
Proof.
  intros Hb Hp. induction Hb as [|q before Hq _ IH]; cbn.
  - now rewrite Hp.
  - now rewrite Hq.
Qed.

Lemma first_function_call_none (ps : list Gemini.part) :
  no_function_call ps -> first_function_call ps = None.
Proof.
  intros H. induction H as [|q ps Hq _ IH]; cbn; [reflexivity|].
  now rewrite Hq.
Qed.

(** C3: when the engine interaction raises [e] at any of its steps,
    [analyze_request] returns (it does not raise) the chat decision whose
    text is ["Error interacting with Agent: "] followed by [str(e)]. *)
Theorem interpretation_never_throws (model : Gemini.generative_model)
  (user_input : string) (chat_history : list turn) (e : exn) :
  engine_fails model user_input e ->
  analyze_request model user_input chat_history =
    Return (DChat ("Error interacting with Agent: " ++ exn_str e)).
Proof.
  intros H. apply interact_raises_iff in H.
  unfold analyze_request. now rewrite H.
Qed.

Lemma interpretation_never_throws_witness :
  analyze_request timeout_model "Do something" [] =
    Return (DChat "Error interacting with Agent: API Timeout").
Proof.
  exact (interpretation_never_throws timeout_model "Do something" []
           (Exn "Exception" "API Timeout")
           (fails_send_message timeout_model "Do something" _ _ eq_refl eq_refl)).
Defined.

(** C5: of the parts of an engine response only the first one that carries
    a structured call decides the proposal, whatever follows it; when no
    part carries one, the decision is the chat reply with the engine's
    text. *)
Theorem first_structured_call_honored (model : Gemini.generative_model)
  (user_input : string) (chat_history : list turn)
  (chat : Gemini.chat_session) (response : Gemini.response)
  (ps : list Gemini.part) :
  Gemini.start_chat model = Return chat ->
  Gemini.send_message chat user_input = Return response ->
  Gemini.parts response = Return ps ->
  (forall before p fc after,
      ps = (before ++ p :: after)%list ->
      no_function_call before ->
      Gemini.part_function_call p = Some fc ->
      analyze_request model user_input chat_history =
        Return (DAction (Action (Gemini.name fc) (Gemini.args fc))))
  /\ (forall t,
      no_function_call ps ->
      Gemini.text response = Return t ->
      analyze_request model user_input chat_history = Return (DChat t)).
Proof.
  intros H1 H2 H3. unfold analyze_request, interact, obind.
  rewrite H1, H2, H3. split.
  - intros before p fc after -> Hb Hp.
    now rewrite (first_function_call_app before after p fc Hb Hp).
  - intros t Hn Ht. now rewrite (first_function_call_none ps Hn), Ht.
Qed.

Lemma first_structured_call_honored_witness :
  analyze_request (answering two_calls_response) "Check health of web-api" [] =
    Return (DAction health_action)
  /\ analyze_request (answering text_response) "What can you do?" [] =
    Return (DChat "I can help you with network operations.").
Proof.
  split.
  - exact (proj1 (first_structured_call_honored (answering two_calls_response)
                    "Check health of web-api" [] _ two_calls_response _
                    eq_refl eq_refl eq_refl)
             [Gemini.Part None] (Gemini.Part (Some health_call)) health_call
             [Gemini.Part (Some restart_call)] eq_refl
             (@Forall_cons _ (fun q => Gemini.part_function_call q = None)
                (Gemini.Part None) [] eq_refl (Forall_nil _)) eq_refl).
  - exact (proj2 (first_structured_call_honored (answering text_response)
                    "What can you do?" [] _ text_response _
                    eq_refl eq_refl eq_refl)
             "I can help you with network operations."
             (@Forall_cons _ (fun q => Gemini.part_function_call q = None)
                (Gemini.Part None) [] eq_refl (Forall_nil _)) eq_refl).
Defined.

End Interpreter.

(** ** agent.py: the tool registry *)
Section Registry.

Lemma tool_lookup_unregistered (tool_name : string) :
  ~ registered tool_name -> tool_lookup tool_map tool_name = None.
Proof.
  unfold registered. generalize tool_map. intros m.
  induction m as [|[k f] m IH]; cbn; [reflexivity|].
  intros H. destruct (String.eqb_spec k tool_name) as [->|N].
  - exfalso. apply H. now left.
  - apply IH. intros I. apply H. now right.
Qed.

Lemma tool_lookup_registered (tool_name : string) (func : py_function) :
  In (tool_name, func) tool_map -> tool_lookup tool_map tool_name = Some func.
Proof.
  unfold tool_map. cbn [In].
  intros [[= <- <-] | [[= <- <-] | [[= <- <-] | []]]]; reflexivity.
Qed.

Lemma is_param_In (f : py_function) (k : string) :
  is_param f k = true <-> In k (map fst (fn_params f)).
Proof.
  unfold is_param. rewrite existsb_exists, in_map_iff. split.
  - intros (p & Hp & E). apply String.eqb_eq in E. now exists p.
  - intros (p & E & Hp). exists p. split; [assumption|]. now apply String.eqb_eq.
Qed.

Lemma unexpected_keyword_some (f : py_function) (kwargs : dict) :
  has_unrecognized f kwargs ->
  exists k, unexpected_keyword f kwargs = Some k.
Proof.
  intros (k & Hk & Np). unfold unexpected_keyword.
  destruct (find _ kwargs) as [kv|] eqn:E; [now exists (fst kv)|].
  exfalso. apply in_map_iff in Hk as ([k' v] & <- & Hin).
  pose proof (find_none _ _ E _ Hin) as Hf. cbn in Hf.
  apply negb_false_iff in Hf. apply is_param_In in Hf. now apply Np.
Qed.

Lemma missing_required_nonempty (f : py_function) (kwargs : dict) :
  lacks_required f kwargs -> missing_required f kwargs <> [].
Proof.
  intros (p & Hp & Hg) E. unfold missing_required in E.
  apply map_eq_nil in E.
  assert (I : In (p, @None value)
                (filter (fun p => match snd p with
                                  | None => negb (dict_has kwargs (fst p))
                                  | Some _ => false
                                  end) (fn_params f))).
  { apply filter_In. split; [assumption|]. cbn. unfold dict_has. now rewrite Hg. }
  rewrite E in I. destruct I.
Qed.

(** Binding is strict: a missing required argument or an unknown keyword
    is a [TypeError]. *)
Lemma bind_kwargs_strict (f : py_function) (kwargs : dict) :
  lacks_required f kwargs \/ has_unrecognized f kwargs ->
  exists cause, bind_kwargs f kwargs = Raise (TypeError cause).
Proof.
  intros H. unfold bind_kwargs.
  destruct (unexpected_keyword f kwargs) as [k|] eqn:E; [eexists; reflexivity|].
  destruct H as [H|H].
  - apply missing_required_nonempty in H.
    destruct (missing_required f kwargs); [contradiction | eexists; reflexivity].
  - apply unexpected_keyword_some in H as (k & Hk). congruence.
Qed.

(** [execute_tool] returns a value for every input. *)
Lemma execute_tool_total (tool_name : string) (tool_args : dict) (w : world) :
  exists result w', execute_tool tool_name tool_args w = (Return result, w').
Proof.
  unfold execute_tool. destruct (tool_lookup tool_map tool_name) as [func|].
  - unfold try_exceptM. destruct (call_kwargs func tool_args w) as [[r|e] w'];
      eexists _, _; reflexivity.
  - eexists _, _. reflexivity.
Qed.

(** The body of a registered tool always leaves a trace in the world. *)
Lemma capability_leaves_trace (name : string) (func : py_function) (locals : dict)
  (w : world) :
  In (name, func) tool_map ->
  slept (snd (fn_body func locals w)) <> slept w.
Proof.
  intros H E. apply (f_equal (@length Q)) in E. revert E.
  unfold tool_map in H. cbn [In] in H.
  destruct H as [[= _ <-] | [[= _ <-] | [[= _ <-] | []]]];
    unfold get_service_health_fn, restart_service_fn, scale_cluster_fn; cbn [fn_body];
    rewrite ?get_service_health_sleeps, ?restart_service_sleeps, ?scale_cluster_sleeps;
    lia.
Qed.

(** C6: for a tool name that is not in the registry and any arguments,
    [execute_tool] returns (it does not raise) the error mapping whose
    message is ["Unknown tool: "] followed by the name, and leaves the world
    as it was, whereas the body of any registered tool would have changed
    it: no capability ran. *)
Theorem unknown_tool_is_reported (tool_name : string) (tool_args : dict) (w : world) :
  ~ registered tool_name ->
  execute_tool tool_name tool_args w =
    (Return (VDict [("error", VStr ("Unknown tool: " ++ tool_name))]), w)
  /\ (forall name func locals,
        In (name, func) tool_map -> slept (snd (fn_body func locals w)) <> slept w).
Proof.
  intros H. split.
  - unfold execute_tool. now rewrite (tool_lookup_unregistered _ H).
  - intros name func locals. apply capability_leaves_trace.
Qed.

Lemma nonexistent_tool_unregistered : ~ registered "nonexistent_tool".
Proof.
  unfold registered. cbn. intros [H | [H | [H | []]]]; discriminate H.
Defined.

Lemma unknown_tool_is_reported_witness :
  execute_tool "nonexistent_tool" [] sample_world =
    (Return (VDict [("error", VStr "Unknown tool: nonexistent_tool")]), sample_world).
Proof.
  exact (proj1 (unknown_tool_is_reported "nonexistent_tool" [] sample_world
                  nonexistent_tool_unregistered)).
Defined.

Example missing_argument_message :
  fst (execute_tool "get_service_health" [] sample_world) =
    Return (VDict [("error",
      VStr ("Tool execution failed: get_service_health() missing 1 required "
            ++ "positional argument: 'service_name'"))]).
Proof. reflexivity. Qed.

Example unexpected_keyword_message :
  fst (execute_tool "restart_service"
         [("service_name", VStr "web-api"); ("hard", VBool true)] sample_world) =
    Return (VDict [("error",
      VStr ("Tool execution failed: restart_service() got an unexpected "
            ++ "keyword argument 'hard'"))]).
Proof. reflexivity. Qed.

(** C7: for a registered tool, arguments that lack a required parameter or
    carry a name that is no parameter make [execute_tool] return (it does
    not raise, and it does not ignore the extra name) the error mapping
    whose message is ["Tool execution failed: "] followed by the cause, the
    text of the [TypeError] that the binding raised. *)
Theorem strict_argument_binding (tool_name : string) (func : py_function)
  (tool_args : dict) (w : world) :
  In (tool_name, func) tool_map ->
  lacks_required func tool_args \/ has_unrecognized func tool_args ->
  exists cause,
    bind_kwargs func tool_args = Raise (TypeError cause)
    /\ execute_tool tool_name tool_args w =
       (Return (VDict [("error", VStr ("Tool execution failed: " ++ cause))]), w).
Proof.
  intros Hreg Hbad. destruct (bind_kwargs_strict func tool_args Hbad) as (cause & Hc).
  exists cause. split; [assumption|].
  unfold execute_tool. rewrite (tool_lookup_registered _ _ Hreg).
  unfold try_exceptM, call_kwargs, bind, lift. now rewrite Hc.
Qed.

Lemma strict_argument_binding_witness :
  (exists cause,
    bind_kwargs get_service_health_fn [] = Raise (TypeError cause)
    /\ execute_tool "get_service_health" [] sample_world =
       (Return (VDict [("error", VStr ("Tool execution failed: " ++ cause))]),
        sample_world))
  /\ (exists cause,
    bind_kwargs scale_cluster_fn
      [("cluster_id", VStr "prod"); ("replicas", VInt 5); ("zone", VStr "b")] =
      Raise (TypeError cause)
    /\ execute_tool "scale_cluster"
         [("cluster_id", VStr "prod"); ("replicas", VInt 5); ("zone", VStr "b")]
         sample_world =
       (Return (VDict [("error", VStr ("Tool execution failed: " ++ cause))]),
        sample_world)).
Proof.
  split.
  - apply (strict_argument_binding "get_service_health" get_service_health_fn []
             sample_world).
    + cbn. left. reflexivity.
    + left. exists "service_name". split; [cbn; left; reflexivity | reflexivity].
  - apply (strict_argument_binding "scale_cluster" scale_cluster_fn _ sample_world).
    + cbn. right. right. left. reflexivity.
    + right. exists "zone". split; [cbn; tauto|].
      cbn. intros [H | [H | []]]; discriminate H.
Defined.

End Registry.

(** ** app.py: the session controller *)
Section Controller.

Lemma st_button_true (label : string) (i : interaction) :
  st_button label i = true <-> i = Click label.
Proof.
  destruct i as [|l|p]; cbn; try (split; [discriminate | discriminate]).
  rewrite String.eqb_eq. split; [now intros -> | now intros [= ->]].
Qed.

Lemma quiet_pass (ev : event) (a : app) : script_pass (quiet ev) a = (Continue, a).
Proof.
  unfold script_pass, and_then, sidebar, safety_widget, chat_input, quiet.
  cbn [operator st_button st_chat_input].
  destruct (pending_action (session a)) eqn:E; cbv beta iota; rewrite ?E; reflexivity.
Qed.

(** One pass, by cases on the session and the interaction. *)
Lemma pass_clear (ev : event) (a : app) :
  operator ev = Click clear_label ->
  script_pass ev a = (Rerun, App (SessionState [] None) (env a) (executed a)).
Proof.
  intros H. unfold script_pass, and_then, sidebar. rewrite H.
  cbn [st_button]. now rewrite String.eqb_refl.
Qed.

Lemma pass_approve (ev : event) (a : app) (act : action) (result : value) (w' : world) :
  pending_action (session a) = Some act ->
  operator ev = Click approve_label ->
  execute_tool (tool act) (tool_args act) (env a) = (Return result, w') ->
  script_pass ev a =
    (Rerun,
     App (SessionState
            (messages (session a)
             ++ [text_turn assistant (executed_notice act); Turn assistant result])
            None)
         w' (executed a ++ [(tool act, tool_args act)])).
Proof.
  intros Hp Ho He. unfold script_pass, and_then, sidebar, safety_widget.
  rewrite Ho. cbn [st_button]. change (String.eqb approve_label clear_label) with false.
  cbv iota. rewrite Hp, He. now rewrite String.eqb_refl.
Qed.

Lemma pass_reject (ev : event) (a : app) (act : action) :
  pending_action (session a) = Some act ->
  operator ev = Click reject_label ->
  script_pass ev a =
    (Rerun,
     App (SessionState
            (messages (session a) ++ [text_turn assistant (rejected_notice act)])
            None)
         (env a) (executed a)).
Proof.
  intros Hp Ho. unfold script_pass, and_then, sidebar, safety_widget.
  rewrite Ho. cbn [st_button]. change (String.eqb reject_label clear_label) with false.
  change (String.eqb reject_label approve_label) with false.
  cbv iota. rewrite Hp. now rewrite String.eqb_refl.
Qed.

Lemma pass_pending_other (ev : event) (a : app) (act : action) :
  pending_action (session a) = Some act ->
  operator ev <> Click clear_label ->
  operator ev <> Click approve_label ->
  operator ev <> Click reject_label ->
  script_pass ev a = (Continue, a).
Proof.
  intros Hp H1 H2 H3. unfold script_pass, and_then, sidebar, safety_widget, chat_input.
  destruct (st_button clear_label (operator ev)) eqn:E1;
    [apply st_button_true in E1; contradiction|].
  rewrite Hp.
  destruct (st_button approve_label (operator ev)) eqn:E2;
    [apply st_button_true in E2; contradiction|].
  destruct (st_button reject_label (operator ev)) eqn:E3;
    [apply st_button_true in E3; contradiction|].
  now rewrite Hp.
Qed.

Lemma pass_idle (ev : event) (a : app) :
  pending_action (session a) = None ->
  operator ev <> Click clear_label ->
  script_pass ev a = chat_input ev a.
Proof.
  intros Hp H1. unfold script_pass, and_then, sidebar, safety_widget.
  destruct (st_button clear_label (operator ev)) eqn:E1;
    [apply st_button_true in E1; contradiction|].
  rewrite Hp. now destruct (chat_input ev a) as [[| |e] a'].
Qed.

(** One operator event, by the same cases. *)
Lemma run_clear (ev : event) (a : app) :
  operator ev = Click clear_label ->
  run ev a = (Continue, App (SessionState [] None) (env a) (executed a)).
Proof. intros H. unfold run. rewrite (pass_clear ev a H). apply quiet_pass. Qed.

Lemma run_approve (ev : event) (a : app) (act : action) (result : value) (w' : world) :
  pending_action (session a) = Some act ->
  operator ev = Click approve_label ->
  execute_tool (tool act) (tool_args act) (env a) = (Return result, w') ->
  run ev a =
    (Continue,
     App (SessionState
            (messages (session a)
             ++ [text_turn assistant (executed_notice act); Turn assistant result])
            None)
         w' (executed a ++ [(tool act, tool_args act)])).
Proof.
  intros Hp Ho He. unfold run. rewrite (pass_approve ev a act result w' Hp Ho He).
  apply quiet_pass.
Qed.

Lemma run_reject (ev : event) (a : app) (act : action) :
  pending_action (session a) = Some act ->
  operator ev = Click reject_label ->
  run ev a =
    (Continue,
     App (SessionState
            (messages (session a) ++ [text_turn assistant (rejected_notice act)])
            None)
         (env a) (executed a)).
Proof.
  intros Hp Ho. unfold run. rewrite (pass_reject ev a act Hp Ho). apply quiet_pass.
Qed.

Lemma run_pending_other (ev : event) (a : app) (act : action) :
  pending_action (session a) = Some act ->
  operator ev <> Click clear_label ->
  operator ev <> Click approve_label ->
  operator ev <> Click reject_label ->
  run ev a = (Continue, a).
Proof.
  intros Hp H1 H2 H3. unfold run. now rewrite (pass_pending_other ev a act Hp H1 H2 H3).
Qed.

Lemma run_idle (ev : event) (a : app) :
  pending_action (session a) = None ->
  operator ev <> Click clear_label ->
  idle_step ev a (run ev a).
Proof.
  intros Hp H1. unfold run. rewrite (pass_idle ev a Hp H1).
  unfold chat_input. rewrite Hp.
  destruct (operator ev) as [|l|prompt] eqn:Eo; cbn [st_chat_input];
    try (apply idle_nothing; intros p Hs; congruence).
  destruct (String.eqb_spec prompt "") as [->|Ne].
  - apply idle_nothing. intros p Hs. congruence.
  - cbv zeta.
    destruct (analyze_request_total (model ev) prompt
                (messages (session a) ++ [text_turn user prompt])) as ([act|response] & Hd);
      rewrite Hd.
    + rewrite quiet_pass. now apply (idle_proposal ev a prompt act).
    + rewrite <- app_assoc. now apply (idle_chat ev a prompt response).
Qed.

Lemma click_dec (i : interaction) (label : string) : {i = Click label} + {i <> Click label}.
Proof.
  destruct (st_button label i) eqn:E.
  - left. now apply st_button_true.
  - right. intros H. apply st_button_true in H. congruence.
Defined.

Lemma run_continues (ev : event) (a : app) : fst (run ev a) = Continue.
Proof.
  destruct (click_dec (operator ev) clear_label) as [C|C];
    [now rewrite (run_clear ev a C)|].
  destruct (pending_action (session a)) as [act|] eqn:Hp.
  - destruct (click_dec (operator ev) approve_label) as [A|A].
    + destruct (execute_tool_total (tool act) (tool_args act) (env a))
        as (result & w' & He).
      now rewrite (run_approve ev a act result w' Hp A He).
    + destruct (click_dec (operator ev) reject_label) as [R|R].
      * now rewrite (run_reject ev a act Hp R).
      * now rewrite (run_pending_other ev a act Hp C A R).
  - destruct (run_idle ev a Hp C); reflexivity.
Qed.

Lemma idle_never_executes (ev : event) (a : app) :
  pending_action (session a) = None -> executed (step a ev) = executed a.
Proof.
  intros Hp. unfold step.
  destruct (click_dec (operator ev) clear_label) as [C|C];
    [now rewrite (run_clear ev a C)|].
  destruct (run_idle ev a Hp C); reflexivity.
Qed.


(** C4: approving the pending proposal calls [execute_tool] once, for
    that proposal; the transcript gains the assistant turn that announces
    the execution and then, as a turn of its own, the result, be it a tool
    result or an error mapping; the pending slot is cleared and the script
    ends normally, so the session is idle again. *)
Theorem approval_executes_exactly_once (ev : event) (a : app) (act : action) :
  pending_action (session a) = Some act ->
  operator ev = Click approve_label ->
  exists result w',
    execute_tool (tool act) (tool_args act) (env a) = (Return result, w')
    /\ run ev a =
       (Continue,
        App (SessionState
               (messages (session a)
                ++ [text_turn assistant (executed_notice act); Turn assistant result])
               None)
            w' (executed a ++ [(tool act, tool_args act)])).
Proof.
  intros Hp Ho.
  destruct (execute_tool_total (tool act) (tool_args act) (env a)) as (result & w' & He).
  exists result, w'. split; [exact He|]. now apply run_approve.
Qed.


(** The same for any session, reachable or not. *)
Lemma step_keeps_single_slot (ev : event) (a : app) :
  (pending_count (step a ev) <= 1)%nat
  /\ (forall act', pending_action (session (step a ev)) = Some act' ->
        pending_action (session a) = None \/ step a ev = a)
  /\ (forall act, pending_action (session a) = Some act ->
        operator ev = Click approve_label \/ operator ev = Click reject_label ->
        pending_action (session (step a ev)) = None)
  /\ (forall act prompt, pending_action (session a) = Some act ->
        operator ev = Submit prompt -> step a ev = a).
Proof.
  split; [|split; [|split]].
  - unfold pending_count. destruct (pending_action (session (step a ev))); lia.
  - intros act' Hp'. destruct (pending_action (session a)) as [act|] eqn:Hp;
      [right | now left].
    unfold step in *.
    destruct (click_dec (operator ev) clear_label) as [C|C];
      [now rewrite (run_clear ev a C) in Hp'|].
    destruct (click_dec (operator ev) approve_label) as [A|A].
    { destruct (execute_tool_total (tool act) (tool_args act) (env a))
        as (result & w' & He).
      now rewrite (run_approve ev a act result w' Hp A He) in Hp'. }
    destruct (click_dec (operator ev) reject_label) as [R|R];
      [now rewrite (run_reject ev a act Hp R) in Hp'|].
    now rewrite (run_pending_other ev a act Hp C A R).
  - intros act Hp [A|R]; unfold step.
    + destruct (execute_tool_total (tool act) (tool_args act) (env a))
        as (result & w' & He).
      now rewrite (run_approve ev a act result w' Hp A He).
    + now rewrite (run_reject ev a act Hp R).
  - intros act prompt Hp Ho. unfold step.
    rewrite (run_pending_other ev a act Hp); [reflexivity | | |];
      rewrite Ho; discriminate.
Qed.

(** C1: after every sequence of operator events the session holds at most
    one pending action; a step that ends with a pending action either
    started idle or changed nothing (a pending proposal is never replaced);
    approval and rejection both clear the slot; and text submitted while a
    proposal is pending is not processed. *)
Theorem single_pending_invariant (evs : list event) (ev : event) (w : world) :
  let a := run_all evs (start w) in
  let a' := step a ev in
  (pending_count a <= 1)%nat /\ (pending_count a' <= 1)%nat
  /\ (forall act', pending_action (session a') = Some act' ->
        pending_action (session a) = None \/ a' = a)
  /\ (forall act, pending_action (session a) = Some act ->
        operator ev = Click approve_label \/ operator ev = Click reject_label ->
        pending_action (session a') = None)
  /\ (forall act prompt, pending_action (session a) = Some act ->
        operator ev = Submit prompt -> a' = a).
Proof.
  intros a a'. split.
  - unfold pending_count. destruct (pending_action (session a)); lia.
  - apply step_keeps_single_slot.
Qed.

(** Scenario A: an idle session that is told to check a service and whose
    engine answers with structured calls awaits approval of the first. *)
Example scenario_proposal :
  run (Event (Submit "Check health of web-api") (answering two_calls_response))
      (start sample_world) = (Continue, awaiting).
Proof. reflexivity. Qed.

(** Scenario E: a free-text answer leaves the session idle with one more
    assistant turn. *)
Example scenario_chat :
  run (Event (Submit "What can you do?") (answering text_response))
      (start sample_world) =
    (Continue,
     App (SessionState
            [text_turn user "What can you do?";
             text_turn assistant "I can help you with network operations."]
            None)
         sample_world []).
Proof. reflexivity. Qed.

(** Text typed while the proposal is pending changes nothing. *)
Example scenario_input_suspended :
  run (Event (Submit "Restart web-api") (answering two_calls_response)) awaiting =
    (Continue, awaiting).
Proof. reflexivity. Qed.

Lemma approval_executes_exactly_once_witness :
  exists result w',
    execute_tool "get_service_health" [("service_name", VStr "web-api")] sample_world =
      (Return result, w')
    /\ run (Event (Click approve_label) timeout_model) awaiting =
       (Continue,
        App (SessionState
               [text_turn user "Check health of web-api";
                text_turn assistant (executed_notice health_action);
                Turn assistant result]
               None)
            w' [("get_service_health", [("service_name", VStr "web-api")])]).
Proof.
  exact (approval_executes_exactly_once (Event (Click approve_label) timeout_model)
           awaiting health_action eq_refl eq_refl).
Defined.


(** On approval of the health probe the world has slept half a second and
    the generator has advanced; on rejection it has not. *)
Example approval_runs_the_tool :
  slept (env (step awaiting (Event (Click approve_label) timeout_model))) = [1 # 2]%Q
  /\ drawn (env (step awaiting (Event (Click approve_label) timeout_model))) = 3%nat
  /\ env (step awaiting (Event (Click reject_label) timeout_model)) = sample_world.
Proof. vm_compute. repeat split. Qed.

End Controller.

(** * Further properties *)

Section ToolsMore.
Import Float64.

Lemma pad2_length (n : nat) : (n < 100)%nat -> String.length (pad2 n) = 2%nat.
Proof.
  intros H.
  assert (A : forallb (fun n => Nat.eqb (String.length (pad2 n)) 2) (seq 0 100) = true)
    by (vm_compute; reflexivity).
  rewrite forallb_forall in A. apply Nat.eqb_eq, A, in_seq. lia.
Qed.

Lemma year_length (n : nat) :
  1000 <= Z.of_nat n <= 9999 -> String.length (str_of_nat n) = 4%nat.
Proof.
  intros H.
  assert (A : forallb (fun n => Nat.eqb (String.length (str_of_nat n)) 4)
                (seq (Z.to_nat 1000) (Z.to_nat 9000)) = true)
    by (vm_compute; reflexivity).
  rewrite forallb_forall in A. apply Nat.eqb_eq, A, in_seq. lia.
Qed.

Lemma two_chars (s : string) :
  String.length s = 2%nat -> exists a b, s = String a (String b "").
Proof.
  destruct s as [|a [|b [|c s]]]; cbn; try discriminate. intros _. now exists a, b.
Qed.

Lemma four_chars (s : string) :
  String.length s = 4%nat ->
  exists a b c d, s = String a (String b (String c (String d ""))).
Proof.
  destruct s as [|a [|b [|c [|d [|e s]]]]]; cbn; try discriminate.
  intros _. now exists a, b, c, d.
Qed.

(** X1: for every service name and every [force] value, under a calendar
    clock, [restart_service] returns the mapping with the input service,
    action [restart], mode [force] exactly when [force] is truthy (else
    [graceful]), status [Success] and a 19-character timestamp with [-] at
    positions 4 and 7, a space at 10 and [:] at 13 and 16; it sleeps 2
    seconds when forced and 1 otherwise, and draws no random number. *)
Theorem restart_service_contract (service_name force : value) (w : world) :
  calendar_time (localtime w) ->
  exists timestamp,
    restart_service service_name force w =
      (Return (VDict [("service", service_name);
                      ("action", VStr "restart");
                      ("mode", VStr (if truthy force then "force" else "graceful"));
                      ("status", VStr "Success");
                      ("timestamp", VStr timestamp)]),
       after w 0 [if truthy force then 2%Q else 1%Q])
    /\ String.length timestamp = 19%nat
    /\ String.get 4 timestamp = Some "-"%char
    /\ String.get 7 timestamp = Some "-"%char
    /\ String.get 10 timestamp = Some " "%char
    /\ String.get 13 timestamp = Some ":"%char
    /\ String.get 16 timestamp = Some ":"%char.
Proof.
  intros (Hy & Hm & Hd & Hh & Hi & Hs).
  unfold restart_service, bind, time_sleep, time_strftime, ret, after.
  cbn [entropy drawn slept localtime].
  rewrite Nat.add_0_r.
  destruct (four_chars _ (year_length (tm_year (localtime w)) Hy)) as (y1 & y2 & y3 & y4 & ->).
  destruct (two_chars _ (pad2_length (tm_mon (localtime w)) ltac:(lia))) as (m1 & m2 & ->).
  destruct (two_chars _ (pad2_length (tm_mday (localtime w)) ltac:(lia))) as (d1 & d2 & ->).
  destruct (two_chars _ (pad2_length (tm_hour (localtime w)) ltac:(lia))) as (h1 & h2 & ->).
  destruct (two_chars _ (pad2_length (tm_min (localtime w)) ltac:(lia))) as (i1 & i2 & ->).
  destruct (two_chars _ (pad2_length (tm_sec (localtime w)) ltac:(lia))) as (s1 & s2 & ->).
  eexists. split; [reflexivity|]. cbn. repeat split; reflexivity.
Qed.


(** [get_service_health], call by call. *)
Lemma get_service_health_steps (service_name : value) (w : world) :
  exists status,
    nth_error statuses (Z.to_nat (Z.of_N (raw_at w 0) mod 3)) = Some status
    /\ get_service_health service_name w =
      (Return (VDict [("service", service_name);
                      ("status", VStr status);
                      ("cpu_usage_percent",
                       VFloat (round_ndigits
                                 (fadd 5 (fmul (fsub 95 5)
                                    (Qred (Qmake (Z.of_N (raw_at w 1) mod 2 ^ 53)
                                                 (Z.to_pos (2 ^ 53)))))) 2));
                      ("memory_usage_mb", VInt (128 + Z.of_N (raw_at w 2) mod 3969))]),
       after w 3 [1 # 2]).
Proof.
  unfold raw_at, after. rewrite Nat.add_0_r.
  pose proof (Z.mod_pos_bound (Z.of_N (entropy w (drawn w))) 3 ltac:(lia)) as B.
  assert (C : exists status,
             nth_error statuses (Z.to_nat (Z.of_N (entropy w (drawn w)) mod 3))
             = Some status).
  { assert (D : Z.of_N (entropy w (drawn w)) mod 3 = 0
                \/ Z.of_N (entropy w (drawn w)) mod 3 = 1
                \/ Z.of_N (entropy w (drawn w)) mod 3 = 2) by lia.
    destruct D as [-> | [-> | ->]]; cbn; eexists; reflexivity. }
  destruct C as (status & Hs). exists status. split; [exact Hs|].
  unfold get_service_health, random_choice, statuses, random_uniform, random_random,
    random_randint, randbelow, bind, next_raw, time_sleep, ret.
  cbn [entropy drawn slept localtime].
  change (Z.of_nat (length ["Running"; "Failed"; "Degraded"])) with 3.
  unfold statuses in Hs. rewrite Hs.
  cbn [entropy drawn slept localtime].
  change (4096 <? 128) with false. cbv iota.
  change (4096 - 128 + 1) with 3969.
  replace (drawn w + 1)%nat with (S (drawn w)) by lia.
  replace (drawn w + 2)%nat with (S (S (drawn w))) by lia.
  replace (drawn w + 3)%nat with (S (S (S (drawn w)))) by lia.
  reflexivity.
Qed.

(** X2: the [cpu_usage_percent] of [get_service_health] is the double
    nearest to [n / 100] for an integer [500 <= n <= 9500] (two decimal
    places); the call draws three random numbers and sleeps 0.5 seconds
    once, for a service name of any type. *)
Theorem get_service_health_two_decimals (service_name : value) (w : world) :
  exists status n mem,
    get_service_health service_name w =
      (Return (VDict [("service", service_name);
                      ("status", VStr status);
                      ("cpu_usage_percent", VFloat (rnd (n # 100)));
                      ("memory_usage_mb", VInt mem)]),
       after w 3 [1 # 2])
    /\ 500 <= n <= 9500.
Proof.
  destruct (get_service_health_steps service_name w) as (status & _ & E).
  rewrite E. clear E.
  set (u := fadd 5 (fmul (fsub 95 5) _)).
  assert (U : (inject_Z 5 <= u <= inject_Z 95)%Q).
  { apply (uniform_between 5 95); [lia | lia | reflexivity |].
    apply random_unit_interval. }
  exists status, (rne_div (Qnum u * 100) (Zpos (Qden u))),
    (128 + Z.of_N (raw_at w 2) mod 3969).
  split; [reflexivity|].
  destruct U as [L H]. unfold Qle in L, H. cbn [Qnum Qden inject_Z] in L, H.
  split; [apply rne_div_ge | apply rne_div_le]; lia.
Qed.

(** X3: each of the three statuses is returned by [get_service_health]
    for some outcome of the random generator. *)
Theorem every_status_occurs (service_name : value) (status : string) :
  In status ["Running"; "Failed"; "Degraded"] ->
  exists w cpu mem w',
    get_service_health service_name w =
      (Return (VDict [("service", service_name);
                      ("status", VStr status);
                      ("cpu_usage_percent", cpu);
                      ("memory_usage_mb", mem)]), w').
Proof.
  cbn [In]. intros [<- | [<- | [<- | []]]].
  - exists (constant_world 0). eexists _, _, _. vm_compute. reflexivity.
  - exists (constant_world 1). eexists _, _, _. vm_compute. reflexivity.
  - exists (constant_world 2). eexists _, _, _. vm_compute. reflexivity.
Qed.

(** [scale_cluster], call by call. *)
Lemma scale_cluster_steps (cluster_id replicas : value) (w : world) :
  let d := -2 + Z.of_N (raw_at w 0) mod 5 in
  -2 <= d <= 2
  /\ scale_cluster cluster_id replicas w =
     match py_add_int replicas d with
     | Raise e => (Raise e, after w 1 [1%Q])
     | Return shifted =>
       match py_max_int 1 shifted with
       | Raise e => (Raise e, after w 1 [1%Q])
       | Return previous =>
         (Return (VDict [("cluster_id", cluster_id);
                         ("previous_replicas", previous);
                         ("current_replicas", replicas);
                         ("status", VStr "Scaled")]), after w 1 [1%Q])
       end
     end.
Proof.
  intros d. split.
  - pose proof (Z.mod_pos_bound (Z.of_N (raw_at w 0)) 5 ltac:(lia)). lia.
  - unfold d, raw_at, after. rewrite Nat.add_0_r.
    replace (drawn w + 1)%nat with (S (drawn w)) by lia.
    unfold scale_cluster, random_randint, randbelow, bind, next_raw, time_sleep,
      ret, lift.
    cbn [entropy drawn slept localtime].
    change (2 <? -2) with false. cbv iota.
    cbn [entropy drawn slept localtime]. change (2 - -2 + 1) with 5.
    destruct (py_add_int replicas _) as [s|e]; [|reflexivity].
    destruct (py_max_int 1 s); reflexivity.
Qed.

(** X4: [scale_cluster] does not validate its replica count: for
    [replicas <= -1] it still succeeds, reports the negative count as
    [current_replicas], and [previous_replicas] is 1. *)
Theorem scale_cluster_negative (cluster_id : value) (replicas : Z) (w : world) :
  replicas <= -1 ->
  scale_cluster cluster_id (VInt replicas) w =
    (Return (VDict [("cluster_id", cluster_id);
                    ("previous_replicas", VInt 1);
                    ("current_replicas", VInt replicas);
                    ("status", VStr "Scaled")]), after w 1 [1%Q]).
Proof.
  intros H. destruct (scale_cluster_steps cluster_id (VInt replicas) w) as [B E].
  cbv zeta in B, E. rewrite E. cbn [py_add_int py_max_int].
  destruct (1 <? _) eqn:C; [apply Z.ltb_lt in C; lia | reflexivity].
Qed.

(** X5: for every offset [-2 <= d <= 2] some outcome of the random generator
    makes [scale_cluster] return [max(1, replicas + d)] as
    [previous_replicas]. *)
Theorem every_offset_occurs (cluster_id : value) (replicas d : Z) :
  -2 <= d <= 2 ->
  exists w w',
    scale_cluster cluster_id (VInt replicas) w =
      (Return (VDict [("cluster_id", cluster_id);
                      ("previous_replicas", VInt (Z.max 1 (replicas + d)));
                      ("current_replicas", VInt replicas);
                      ("status", VStr "Scaled")]), w').
Proof.
  intros H. exists (constant_world (Z.to_N (d + 2))).
  destruct (scale_cluster_steps cluster_id (VInt replicas)
              (constant_world (Z.to_N (d + 2)))) as [_ E].
  cbv zeta in E. rewrite E. clear E.
  unfold raw_at, constant_world. cbn [entropy drawn].
  rewrite Z2N.id by lia. rewrite Z.mod_small by lia.
  replace (-2 + (d + 2)) with d by lia.
  cbn [py_add_int py_max_int]. eexists.
  destruct (1 <? replicas + d) eqn:C.
  - apply Z.ltb_lt in C. now rewrite Z.max_r by lia.
  - apply Z.ltb_ge in C. now rewrite Z.max_l by lia.
Qed.

End ToolsMore.

Section RegistryMore.
Import Float64.

(** X6: with a replica count to which an integer cannot be added (None, a
    string, a list, a mapping), [execute_tool] returns the error mapping
    [Tool execution failed: ...]; the one-second sleep and the random draw
    of [scale_cluster] have happened before the failure. *)
Theorem scale_cluster_type_mismatch (cluster_id replicas : value) (w : world) :
  non_numeric replicas ->
  exists cause,
    execute_tool "scale_cluster" [("cluster_id", cluster_id); ("replicas", replicas)] w =
      (Return (VDict [("error", VStr ("Tool execution failed: " ++ cause))]),
       after w 1 [1%Q]).
Proof.
  intros H. unfold execute_tool. cbn [tool_lookup tool_map String.eqb Ascii.eqb Bool.eqb].
  unfold try_exceptM, call_kwargs, bind, lift.
  change (bind_kwargs scale_cluster_fn [("cluster_id", cluster_id); ("replicas", replicas)])
    with (Return [("cluster_id", cluster_id); ("replicas", replicas)]).
  cbv iota. unfold scale_cluster_fn. cbn [fn_body].
  change (local [("cluster_id", cluster_id); ("replicas", replicas)] "cluster_id")
    with cluster_id.
  change (local [("cluster_id", cluster_id); ("replicas", replicas)] "replicas")
    with replicas.
  destruct (scale_cluster_steps cluster_id replicas w) as [_ E]. cbv zeta in E.
  rewrite E.
  destruct replicas; try contradiction; cbn [py_add_int]; eexists; reflexivity.
Qed.

Lemma rnd_integer (k : Z) : 0 <= k < 2 ^ prec -> (rnd (inject_Z k) == inject_Z k)%Q.
Proof.
  intros H.
  destruct (rnd_between (inject_Z k) k k ltac:(lia) ltac:(lia)
              (Qle_refl _) (Qle_refl _)) as [L U].
  apply Qle_antisym; assumption.
Qed.

(** X7: a replica count that arrives as a float with the integer value
    [2 <= n < 2^53 - 2] is accepted: [current_replicas] is that float and
    [previous_replicas] is the float of value [n + d] when [n + d > 1] and
    the integer 1 otherwise. *)
Theorem scale_cluster_float_replicas (cluster_id : value) (n : Z) (w : world) :
  2 <= n < 2 ^ 53 - 2 ->
  exists d q,
    -2 <= d <= 2 /\ (q == inject_Z (n + d))%Q
    /\ scale_cluster cluster_id (VFloat (inject_Z n)) w =
      (Return (VDict [("cluster_id", cluster_id);
                      ("previous_replicas", if 1 <? n + d then VFloat q else VInt 1);
                      ("current_replicas", VFloat (inject_Z n));
                      ("status", VStr "Scaled")]), after w 1 [1%Q]).
Proof.
  intros H. destruct (scale_cluster_steps cluster_id (VFloat (inject_Z n)) w) as [B E].
  cbv zeta in B, E. set (d := -2 + Z.of_N (raw_at w 0) mod 5) in *.
  exists d, (fadd (inject_Z n) (inject_Z d)).
  assert (R : (fadd (inject_Z n) (inject_Z d) == inject_Z (n + d))%Q).
  { unfold fadd.
    assert (P : (inject_Z (n + d) <= inject_Z n + inject_Z d <= inject_Z (n + d))%Q).
    { rewrite inject_Z_plus. split; apply Qle_refl. }
    assert (Hp : n + d < 2 ^ prec) by (change (2 ^ prec) with (2 ^ 53); lia).
    destruct (rnd_between (inject_Z n + inject_Z d) (n + d) (n + d)
                ltac:(lia) Hp (proj1 P) (proj2 P)) as [L U].
    apply Qle_antisym; assumption. }
  split; [exact B|]. split; [exact R|].
  rewrite E. cbn [py_add_int py_max_int].
  destruct (Qlt_le_dec (inject_Z 1) (fadd (inject_Z n) (inject_Z d))) as [G|G];
    rewrite R in G.
  - rewrite <- Zlt_Qlt in G. apply Z.ltb_lt in G. now rewrite G.
  - rewrite <- Zle_Qle in G. apply Z.ltb_ge in G. now rewrite G.
Qed.

Lemma find_none_iff {A : Type} (p : A -> bool) (l : list A) :
  find p l = None <-> forall x, In x l -> p x = false.
Proof.
  split; [apply find_none|].
  induction l as [|a l IH]; cbn; [reflexivity|]. intros H.
  rewrite (H a (or_introl eq_refl)). apply IH. intros x Hx. apply H. now right.
Qed.

(** X8: binding keyword arguments to a function succeeds exactly when no
    required parameter is left unbound and every keyword names a
    parameter. *)
Theorem bind_kwargs_succeeds_iff (f : py_function) (kwargs : dict) :
  (exists locals, bind_kwargs f kwargs = Return locals)
  <-> ~ lacks_required f kwargs /\ ~ has_unrecognized f kwargs.
Proof.
  split.
  - intros (locals & E). split; intros H.
    + destruct (bind_kwargs_strict f kwargs (or_introl H)) as (c & Hc). congruence.
    + destruct (bind_kwargs_strict f kwargs (or_intror H)) as (c & Hc). congruence.
  - intros [Hl Hu]. unfold bind_kwargs.
    destruct (unexpected_keyword f kwargs) as [k|] eqn:E.
    { exfalso. apply Hu. unfold unexpected_keyword in E.
      destruct (find _ kwargs) as [kv|] eqn:F; [|discriminate].
      apply find_some in F as [Hin Hp]. exists (fst kv). split.
      - apply in_map. exact Hin.
      - intros I. apply is_param_In in I. rewrite I in Hp. discriminate. }
    destruct (missing_required f kwargs) as [|p ps] eqn:M; [eexists; reflexivity|].
    exfalso. apply Hl.
    assert (I : In p (missing_required f kwargs)) by (rewrite M; now left).
    unfold missing_required in I. apply in_map_iff in I as ([p' dflt] & <- & I).
    apply filter_In in I as [I C]. cbn in C. destruct dflt; [discriminate|].
    exists p'. split; [exact I|]. cbn. unfold dict_has in C.
    destruct (dict_get kwargs p'); [discriminate | reflexivity].
Qed.

Lemma dict_get_bound (kwargs : dict) (params : list (string * option value))
  (p : string) (dflt : option value) :
  NoDup (map fst params) -> In (p, dflt) params ->
  dict_get (map (bound_value kwargs) params) p = Some (snd (bound_value kwargs (p, dflt))).
Proof.
  induction params as [|[p' d'] params IH]; cbn [map In fst]; [intros _ []|].
  intros N [E|I].
  - injection E as -> ->. cbn [dict_get bound_value fst]. now rewrite String.eqb_refl.
  - inversion N as [|? ? Nin N']; subst. cbn [dict_get bound_value fst].
    destruct (String.eqb_spec p' p) as [->|Ne].
    + exfalso. apply Nin. apply in_map_iff. now exists (p, dflt).
    + now apply IH.
Qed.

(** X9: after a successful binding to a function with distinct parameter
    names, each parameter holds the value of its keyword when one was
    given and its default otherwise. *)
Theorem bound_parameters (f : py_function) (kwargs locals : dict) :
  NoDup (map fst (fn_params f)) ->
  bind_kwargs f kwargs = Return locals ->
  forall p dflt, In (p, dflt) (fn_params f) ->
    match dict_get kwargs p with
    | Some v => local locals p = v
    | None => exists d, dflt = Some d /\ local locals p = d
    end.
Proof.
  intros N E p dflt I.
  assert (S : exists l, bind_kwargs f kwargs = Return l) by (now exists locals).
  apply bind_kwargs_succeeds_iff in S as [Hl _].
  unfold bind_kwargs in E.
  destruct (unexpected_keyword f kwargs); [discriminate|].
  destruct (missing_required f kwargs); [|discriminate].
  injection E as <-. unfold local.
  rewrite (dict_get_bound kwargs _ p dflt N I). cbn [bound_value fst snd].
  destruct (dict_get kwargs p) as [v|] eqn:G; [reflexivity|].
  destruct dflt as [d|]; [now exists d|].
  exfalso. apply Hl. now exists p.
Qed.

End RegistryMore.


Section BindingOrder.

Lemma dict_get_In (d : dict) (k : string) (v : value) :
  dict_get d k = Some v -> In (k, v) d.
Proof.
  induction d as [|[k' v'] d IH]; cbn; [discriminate|].
  destruct (String.eqb_spec k' k) as [->|Ne].
  - intros [= ->]. now left.
  - intros H. right. now apply IH.
Qed.

Lemma dict_get_NoDup (d : dict) (k : string) (v : value) :
  NoDup (map fst d) -> In (k, v) d -> dict_get d k = Some v.
Proof.
  induction d as [|[k' v'] d IH]; cbn [map fst In dict_get]; [intros _ []|].
  intros N [E|I].
  - injection E as -> ->. now rewrite String.eqb_refl.
  - inversion N as [|? ? Nin N']; subst.
    destruct (String.eqb_spec k' k) as [->|Ne].
    + exfalso. apply Nin. apply in_map_iff. now exists (k, v).
    + now apply IH.
Qed.

Lemma dict_get_permutation (d d' : dict) (k : string) :
  NoDup (map fst d) -> Permutation d d' -> dict_get d k = dict_get d' k.
Proof.
  intros N P.
  assert (N' : NoDup (map fst d')).
  { apply (Permutation_NoDup (Permutation_map fst P) N). }
  destruct (dict_get d k) as [v|] eqn:G.
  - symmetry. apply dict_get_NoDup; [exact N'|].
    apply (Permutation_in _ P). now apply dict_get_In.
  - destruct (dict_get d' k) as [v'|] eqn:G'; [|reflexivity].
    apply dict_get_In in G'. apply (Permutation_in _ (Permutation_sym P)) in G'.
    apply (dict_get_NoDup d k v' N) in G'. congruence.
Qed.

(** X10: binding is by name: reordering the keyword arguments (distinct
    keys) of a successful binding yields the same bound parameters. *)
Theorem keyword_order_is_irrelevant (f : py_function) (kwargs kwargs' locals : dict) :
  NoDup (map fst kwargs) ->
  Permutation kwargs kwargs' ->
  bind_kwargs f kwargs = Return locals ->
  bind_kwargs f kwargs' = Return locals.
Proof.
  intros N P E. unfold bind_kwargs in *.
  destruct (unexpected_keyword f kwargs) as [k|] eqn:U; [discriminate|].
  assert (U' : unexpected_keyword f kwargs' = None).
  { unfold unexpected_keyword in *.
    destruct (find _ kwargs) eqn:F; [discriminate|].
    destruct (find _ kwargs') as [kv|] eqn:F'; [|reflexivity].
    apply find_some in F' as [I C].
    apply (Permutation_in _ (Permutation_sym P)) in I.
    rewrite (find_none _ _ F _ I) in C. discriminate. }
  rewrite U'.
  assert (M : missing_required f kwargs' = missing_required f kwargs).
  { unfold missing_required. f_equal. apply filter_ext. intros [p dflt]. cbn.
    unfold dict_has. now rewrite (dict_get_permutation kwargs kwargs' p N P). }
  rewrite M. destruct (missing_required f kwargs); [|discriminate].
  injection E as <-. apply f_equal. apply map_ext. intros [p dflt].
  unfold bound_value. cbn [fst snd].
  now rewrite (dict_get_permutation kwargs kwargs' p N P).
Qed.

(** X11: a call through the registry with well-formed arguments is the
    direct call of the tool: [get_service_health], [restart_service] with
    and without [force] (which defaults to [False]), and [scale_cluster]
    with an integer count. *)
Theorem execute_tool_dispatch (w : world) :
  (forall v, execute_tool "get_service_health" [("service_name", v)] w =
             get_service_health v w)
  /\ (forall v, execute_tool "restart_service" [("service_name", v)] w =
                restart_service v (VBool false) w)
  /\ (forall v force,
        execute_tool "restart_service" [("service_name", v); ("force", force)] w =
        restart_service v force w)
  /\ (forall c r,
        execute_tool "scale_cluster" [("cluster_id", c); ("replicas", VInt r)] w =
        scale_cluster c (VInt r) w).
Proof.
  split; [|split; [|split]]; intros.
  - destruct (get_service_health_steps v w) as (status & _ & E).
    unfold execute_tool. cbn [tool_lookup tool_map String.eqb Ascii.eqb Bool.eqb].
    unfold try_exceptM, call_kwargs, bind, lift.
    change (bind_kwargs get_service_health_fn [("service_name", v)])
      with (Return [("service_name", v)]).
    cbv iota. unfold get_service_health_fn. cbn [fn_body].
    change (local [("service_name", v)] "service_name") with v.
    now rewrite E.
  - unfold execute_tool. cbn [tool_lookup tool_map String.eqb Ascii.eqb Bool.eqb].
    unfold try_exceptM, call_kwargs, bind, lift.
    change (bind_kwargs restart_service_fn [("service_name", v)])
      with (Return [("service_name", v); ("force", VBool false)]).
    reflexivity.
  - unfold execute_tool. cbn [tool_lookup tool_map String.eqb Ascii.eqb Bool.eqb].
    unfold try_exceptM, call_kwargs, bind, lift.
    change (bind_kwargs restart_service_fn [("service_name", v); ("force", force)])
      with (Return [("service_name", v); ("force", force)]).
    reflexivity.
  - destruct (scale_cluster_steps c (VInt r) w) as [_ E]. cbv zeta in E.
    unfold execute_tool. cbn [tool_lookup tool_map String.eqb Ascii.eqb Bool.eqb].
    unfold try_exceptM, call_kwargs, bind, lift.
    change (bind_kwargs scale_cluster_fn [("cluster_id", c); ("replicas", VInt r)])
      with (Return [("cluster_id", c); ("replicas", VInt r)]).
    cbv iota. unfold scale_cluster_fn. cbn [fn_body].
    change (local [("cluster_id", c); ("replicas", VInt r)] "cluster_id") with c.
    change (local [("cluster_id", c); ("replicas", VInt r)] "replicas") with (VInt r).
    rewrite E. cbn [py_add_int py_max_int]. reflexivity.
Qed.

End BindingOrder.

Section InterpreterMore.

Lemma first_function_call_In (ps : list Gemini.part) (fc : Gemini.function_call) :
  first_function_call ps = Some fc ->
  exists before after,
    ps = (before ++ Gemini.Part (Some fc) :: after)%list /\ no_function_call before.
Proof.
  induction ps as [|[[fc'|]] ps IH]; cbn; [discriminate | |].
  - intros [= ->]. exists [], ps. split; [reflexivity | constructor].
  - intros H. destruct (IH H) as (before & after & -> & Hb).
    exists (Gemini.Part None :: before), after. split; [reflexivity|].
    constructor; [reflexivity | exact Hb].
Qed.

(** X12: every decision of [analyze_request] comes from the engine: an
    action is the first part of the response that carries a structured
    call, name and arguments unchanged; a chat text is the response text
    of a response without structured call, or the error text of an engine
    failure. *)
Theorem decision_origin (model : Gemini.generative_model) (user_input : string)
  (chat_history : list turn) (d : decision) :
  analyze_request model user_input chat_history = Return d ->
  match d with
  | DAction act =>
    exists chat response before fc after,
      Gemini.start_chat model = Return chat
      /\ Gemini.send_message chat user_input = Return response
      /\ Gemini.parts response = Return (before ++ Gemini.Part (Some fc) :: after)%list
      /\ no_function_call before
      /\ act = Action (Gemini.name fc) (Gemini.args fc)
  | DChat t =>
    (exists chat response ps,
      Gemini.start_chat model = Return chat
      /\ Gemini.send_message chat user_input = Return response
      /\ Gemini.parts response = Return ps
      /\ no_function_call ps
      /\ Gemini.text response = Return t)
    \/ (exists e, engine_fails model user_input e
                  /\ t = "Error interacting with Agent: " ++ exn_str e)
  end.
Proof.
  unfold analyze_request, try_except.
  destruct (interact model user_input) as [d'|e] eqn:E.
  - intros [= ->]. unfold interact, obind in E.
    destruct (Gemini.start_chat model) as [chat|] eqn:E1; [|discriminate].
    destruct (Gemini.send_message chat user_input) as [response|] eqn:E2; [|discriminate].
    destruct (Gemini.parts response) as [ps|] eqn:E3; [|discriminate].
    destruct (first_function_call ps) as [fc|] eqn:E4.
    + injection E as <-.
      destruct (first_function_call_In ps fc E4) as (before & after & -> & Hb).
      now exists chat, response, before, fc, after.
    + destruct (Gemini.text response) as [t|] eqn:E5; [|discriminate].
      injection E as <-. left. exists chat, response, ps.
      do 3 (split; [first [reflexivity | assumption]|]).
      split; [|first [reflexivity | assumption]]. clear E3. induction ps as [|[[fc|]] ps IH]; [constructor | discriminate |].
      constructor; [reflexivity | now apply IH].
  - intros [= <-]. right. exists e. split; [|reflexivity].
    now apply interact_raises_iff.
Qed.

End InterpreterMore.

Section ControllerMore.

(** X13: the reset button empties the transcript and the pending slot
    whatever they hold, executes nothing (a pending proposal is discarded
    unexecuted) and leaves the world untouched. *)
Theorem reset_discards_pending (ev : event) (a : app) :
  operator ev = Click clear_label ->
  run ev a = (Continue, App (initialise None) (env a) (executed a)).
Proof. intros H. now rewrite (run_clear ev a H). Qed.

(** One step appends at most two turns, unless it is a reset. *)
Lemma step_appends (ev : event) (a : app) :
  operator ev <> Click clear_label ->
  exists suffix,
    messages (session (step a ev)) = (messages (session a) ++ suffix)%list
    /\ (length suffix <= 2)%nat.
Proof.
  intros C. unfold step.
  destruct (pending_action (session a)) as [act|] eqn:Hp.
  - destruct (click_dec (operator ev) approve_label) as [A|A].
    + destruct (execute_tool_total (tool act) (tool_args act) (env a))
        as (result & w' & He).
      rewrite (run_approve ev a act result w' Hp A He). cbn.
      eexists. split; [reflexivity | cbn; lia].
    + destruct (click_dec (operator ev) reject_label) as [R|R].
      * rewrite (run_reject ev a act Hp R). cbn.
        eexists. split; [reflexivity | cbn; lia].
      * rewrite (run_pending_other ev a act Hp C A R). cbn.
        exists []. split; [now rewrite app_nil_r | cbn; lia].
  - destruct (run_idle ev a Hp C); cbn.
    + exists []. split; [now rewrite app_nil_r | cbn; lia].
    + eexists. split; [reflexivity | cbn; lia].
    + eexists. split; [reflexivity | cbn; lia].
Qed.

(** X14: over a sequence of events without reset the transcript only
    grows at its end, by at most two turns per event. *)
Theorem transcript_is_append_only (evs : list event) (a : app) :
  Forall (fun ev => operator ev <> Click clear_label) evs ->
  exists suffix,
    messages (session (run_all evs a)) = (messages (session a) ++ suffix)%list
    /\ (length suffix <= 2 * length evs)%nat.
Proof.
  intros H. revert a. induction H as [|ev evs Hev _ IH]; intros a.
  - exists []. cbn. split; [now rewrite app_nil_r | lia].
  - cbn [run_all fold_left]. fold (run_all evs (step a ev)).
    destruct (IH (step a ev)) as (s2 & E2 & L2).
    destruct (step_appends ev a Hev) as (s1 & E1 & L1).
    exists (s1 ++ s2)%list. rewrite E2, E1, <- app_assoc.
    split; [reflexivity|]. rewrite length_app. cbn [length]. lia.
Qed.

(** X15: after any sequence of events from the start of a session, the
    script handles the next event without an exception leaving it. *)
Theorem session_never_crashes (evs : list event) (ev : event) (w : world) :
  fst (run ev (run_all evs (start w))) = Continue.
Proof. apply run_continues. Qed.

Lemma execute_iff_approved_aux (ev : event) (a : app) (act : action) :
  pending_action (session a) = Some act ->
  (operator ev = Click approve_label ->
   executed (step a ev) = (executed a ++ [(tool act, tool_args act)])%list)
  /\ (operator ev <> Click approve_label -> executed (step a ev) = executed a).
Proof.
  intros Hp. split.
  - intros A.
    destruct (execute_tool_total (tool act) (tool_args act) (env a))
      as (result & w' & He).
    unfold step. now rewrite (run_approve ev a act result w' Hp A He).
  - intros A. unfold step.
    destruct (click_dec (operator ev) clear_label) as [C|C];
      [now rewrite (run_clear ev a C)|].
    destruct (click_dec (operator ev) reject_label) as [R|R].
    + now rewrite (run_reject ev a act Hp R).
    + now rewrite (run_pending_other ev a act Hp C A R).
Qed.

Lemma step_executes (ev : event) (a : app) :
  exists calls,
    executed (step a ev) = (executed a ++ calls)%list
    /\ (length calls <= if st_button approve_label (operator ev) then 1 else 0)%nat.
Proof.
  destruct (pending_action (session a)) as [act|] eqn:Hp.
  - destruct (execute_iff_approved_aux ev a act Hp) as [Hyes Hno].
    destruct (click_dec (operator ev) approve_label) as [A|A].
    + exists [(tool act, tool_args act)]. split; [now apply Hyes|].
      apply st_button_true in A. rewrite A. cbn. lia.
    + exists []. rewrite app_nil_r. split; [now apply Hno | cbn; lia].
  - exists []. rewrite app_nil_r. split; [now apply idle_never_executes | cbn; lia].
Qed.

(** X16: over any sequence of events the history of [execute_tool] calls
    only grows at its end, by at most one call per click on approve. *)
Theorem executions_bounded_by_approvals (evs : list event) (a : app) :
  exists calls,
    executed (run_all evs a) = (executed a ++ calls)%list
    /\ (length calls <= approval_clicks evs)%nat.
Proof.
  revert a. induction evs as [|ev evs IH]; intros a.
  - exists []. cbn. split; [now rewrite app_nil_r | lia].
  - cbn [run_all fold_left]. fold (run_all evs (step a ev)).
    destruct (IH (step a ev)) as (c2 & E2 & L2).
    destruct (step_executes ev a) as (c1 & E1 & L1).
    exists (c1 ++ c2)%list. rewrite E2, E1, <- app_assoc.
    split; [reflexivity|]. rewrite length_app. unfold approval_clicks in *.
    cbn [filter]. destruct (st_button approve_label (operator ev)); cbn [length]; lia.
Qed.

End ControllerMore.

Section ControllerFlows.

Lemma step_keeps_world (ev : event) (a : app) :
  operator ev <> Click approve_label -> env (step a ev) = env a.
Proof.
  intros A. unfold step.
  destruct (click_dec (operator ev) clear_label) as [C|C];
    [now rewrite (run_clear ev a C)|].
  destruct (pending_action (session a)) as [act|] eqn:Hp.
  - destruct (click_dec (operator ev) reject_label) as [R|R].
    + now rewrite (run_reject ev a act Hp R).
    + now rewrite (run_pending_other ev a act Hp C A R).
  - destruct (run_idle ev a Hp C); reflexivity.
Qed.

(** X17: a sequence of events without approval leaves the world (sleeps,
    random generator, clock) exactly as it was. *)
Theorem world_untouched_without_approval (evs : list event) (a : app) :
  Forall (fun ev => operator ev <> Click approve_label) evs ->
  env (run_all evs a) = env a.
Proof.
  intros H. revert a. induction H as [|ev evs Hev _ IH]; intros a; [reflexivity|].
  cbn [run_all fold_left]. fold (run_all evs (step a ev)).
  now rewrite IH, step_keeps_world.
Qed.

Lemma run_submit (ev : event) (a : app) (prompt : string) (d : decision) :
  pending_action (session a) = None ->
  operator ev = Submit prompt -> prompt <> "" ->
  analyze_request (model ev) prompt
    (messages (session a) ++ [text_turn user prompt])%list = Return d ->
  run ev a =
    (Continue,
     match d with
     | DChat response =>
       App (SessionState (messages (session a)
                          ++ [text_turn user prompt; text_turn assistant response])
              None) (env a) (executed a)
     | DAction act =>
       App (SessionState (messages (session a) ++ [text_turn user prompt]) (Some act))
           (env a) (executed a)
     end).
Proof.
  intros Hp Ho Hn Hd.
  assert (C : operator ev <> Click clear_label) by (rewrite Ho; discriminate).
  destruct (run_idle ev a Hp C) as [Hnone | p r Hs Hne Ha | p act Hs Hne Ha].
  - exfalso. apply Hn. now apply Hnone.
  - rewrite Ho in Hs. injection Hs as <-. rewrite Hd in Ha. injection Ha as ->.
    reflexivity.
  - rewrite Ho in Hs. injection Hs as <-. rewrite Hd in Ha. injection Ha as ->.
    reflexivity.
Qed.

(** X18: when the engine fails with [e] on a text submitted to an idle
    session, the transcript gains the user turn and the assistant turn
    [Error interacting with Agent: str(e)], the session stays idle, and
    nothing is executed. *)
Theorem engine_failure_is_shown (ev : event) (a : app) (prompt : string) (e : exn) :
  pending_action (session a) = None ->
  operator ev = Submit prompt -> prompt <> "" ->
  engine_fails (model ev) prompt e ->
  run ev a =
    (Continue,
     App (SessionState
            (messages (session a)
             ++ [text_turn user prompt;
                 text_turn assistant ("Error interacting with Agent: " ++ exn_str e)])
            None)
         (env a) (executed a)).
Proof.
  intros Hp Ho Hn Hf. apply interact_raises_iff in Hf.
  apply (run_submit ev a prompt (DChat _) Hp Ho Hn).
  unfold analyze_request. now rewrite Hf.
Qed.

(** X19: when the engine answers a text submitted to an idle session with a
    response whose first structured call is [fc], the session awaits
    approval of [fc], only the user turn is appended, and nothing is
    executed yet. *)
Theorem submission_yields_proposal (ev : event) (a : app) (prompt : string)
  (chat : Gemini.chat_session) (response : Gemini.response)
  (before after : list Gemini.part) (fc : Gemini.function_call) :
  pending_action (session a) = None ->
  operator ev = Submit prompt -> prompt <> "" ->
  Gemini.start_chat (model ev) = Return chat ->
  Gemini.send_message chat prompt = Return response ->
  Gemini.parts response = Return (before ++ Gemini.Part (Some fc) :: after)%list ->
  no_function_call before ->
  run ev a =
    (Continue,
     App (SessionState (messages (session a) ++ [text_turn user prompt])
            (Some (Action (Gemini.name fc) (Gemini.args fc))))
         (env a) (executed a)).
Proof.
  intros Hp Ho Hn H1 H2 H3 Hb.
  apply (run_submit ev a prompt (DAction _) Hp Ho Hn).
  unfold analyze_request, interact, obind. rewrite H1, H2, H3.
  now rewrite (first_function_call_app before after (Gemini.Part (Some fc)) fc Hb eq_refl).
Qed.

(** X20: approving a proposal that names an unregistered tool, or whose
    arguments lack a required parameter or carry an unknown keyword,
    appends the announcement and an error mapping, clears the slot, and
    leaves the world untouched: no tool ran. *)
Theorem failed_execution_is_recorded (ev : event) (a : app) (act : action) :
  pending_action (session a) = Some act ->
  operator ev = Click approve_label ->
  (~ registered (tool act)
   \/ exists func, In (tool act, func) tool_map
                   /\ (lacks_required func (tool_args act)
                       \/ has_unrecognized func (tool_args act))) ->
  exists message,
    run ev a =
      (Continue,
       App (SessionState
              (messages (session a)
               ++ [text_turn assistant (executed_notice act);
                   Turn assistant (VDict [("error", VStr message)])])
              None)
           (env a) (executed a ++ [(tool act, tool_args act)])).
Proof.
  intros Hp Ho [Hu | (func & Hin & Hbad)].
  - exists ("Unknown tool: " ++ tool act).
    apply (run_approve ev a act _ (env a) Hp Ho).
    unfold execute_tool. now rewrite (tool_lookup_unregistered _ Hu).
  - destruct (bind_kwargs_strict func (tool_args act) Hbad) as (cause & Hc).
    exists ("Tool execution failed: " ++ cause).
    apply (run_approve ev a act _ (env a) Hp Ho).
    unfold execute_tool. rewrite (tool_lookup_registered _ _ Hin).
    unfold try_exceptM, call_kwargs, bind, lift. now rewrite Hc.
Qed.

(** X21: text submitted while a proposal is pending is dropped, whereas the
    same text submitted after the approval or the rejection is appended to
    the transcript as a user turn. *)
Theorem input_resumes_after_decision (ev1 ev2 : event) (a : app) (act : action)
  (prompt : string) :
  pending_action (session a) = Some act ->
  operator ev1 = Click approve_label \/ operator ev1 = Click reject_label ->
  operator ev2 = Submit prompt -> prompt <> "" ->
  step a ev2 = a
  /\ exists before after,
       messages (session (step (step a ev1) ev2)) =
         (messages (session (step a ev1)) ++ text_turn user prompt :: after)%list
       /\ messages (session (step a ev1)) = (messages (session a) ++ before)%list.
Proof.
  intros Hp H1 H2 Hn. split.
  - unfold step. rewrite (run_pending_other ev2 a act Hp); [reflexivity | | |];
      rewrite H2; discriminate.
  - assert (Hidle : pending_action (session (step a ev1)) = None).
    { unfold step. destruct H1 as [A|R].
      - destruct (execute_tool_total (tool act) (tool_args act) (env a))
          as (result & w' & He).
        now rewrite (run_approve ev1 a act result w' Hp A He).
      - now rewrite (run_reject ev1 a act Hp R). }
    assert (C1 : operator ev1 <> Click clear_label)
      by (destruct H1 as [E|E]; rewrite E; discriminate).
    destruct (step_appends ev1 a C1) as (before & Eb & _).
    destruct (analyze_request_total (model ev2) prompt
                (messages (session (step a ev1)) ++ [text_turn user prompt]))
      as (d & Hd).
    exists before. unfold step at 1.
    rewrite (run_submit ev2 (step a ev1) prompt d Hidle H2 Hn Hd).
    destruct d as [act'|response]; cbn [snd session messages];
      eexists; (split; [reflexivity | exact Eb]).
Qed.

End ControllerFlows.

(** ** The further properties at sample inputs *)
Section FurtherWitnesses.
Import Float64.

Lemma sample_clock : calendar_time (localtime sample_world).
Proof. unfold calendar_time. cbn. lia. Defined.

Lemma restart_service_contract_witness :
  exists timestamp,
    restart_service (VStr "web-api") (VStr "false") sample_world =
      (Return (VDict [("service", VStr "web-api");
                      ("action", VStr "restart");
                      ("mode", VStr "force");
                      ("status", VStr "Success");
                      ("timestamp", VStr timestamp)]),
       after sample_world 0 [2%Q])
    /\ String.length timestamp = 19%nat
    /\ String.get 4 timestamp = Some "-"%char
    /\ String.get 7 timestamp = Some "-"%char
    /\ String.get 10 timestamp = Some " "%char
    /\ String.get 13 timestamp = Some ":"%char
    /\ String.get 16 timestamp = Some ":"%char.
Proof.
  exact (restart_service_contract (VStr "web-api") (VStr "false") sample_world
           sample_clock).
Defined.

Lemma every_status_occurs_witness :
  exists w cpu mem w',
    get_service_health (VStr "web-api") w =
      (Return (VDict [("service", VStr "web-api");
                      ("status", VStr "Degraded");
                      ("cpu_usage_percent", cpu);
                      ("memory_usage_mb", mem)]), w').
Proof.
  apply (every_status_occurs (VStr "web-api") "Degraded"). cbn. tauto.
Defined.

Lemma scale_cluster_negative_witness :
  scale_cluster (VStr "prod") (VInt (-5)) sample_world =
    (Return (VDict [("cluster_id", VStr "prod");
                    ("previous_replicas", VInt 1);
                    ("current_replicas", VInt (-5));
                    ("status", VStr "Scaled")]), after sample_world 1 [1%Q]).
Proof.
  apply (scale_cluster_negative (VStr "prod") (-5) sample_world). lia.
Defined.

Lemma every_offset_occurs_witness :
  exists w w',
    scale_cluster (VStr "prod") (VInt 5) w =
      (Return (VDict [("cluster_id", VStr "prod");
                      ("previous_replicas", VInt (Z.max 1 (5 + 2)));
                      ("current_replicas", VInt 5);
                      ("status", VStr "Scaled")]), w').
Proof.
  apply (every_offset_occurs (VStr "prod") 5 2). lia.
Defined.

Lemma scale_cluster_type_mismatch_witness :
  exists cause,
    execute_tool "scale_cluster"
      [("cluster_id", VStr "prod"); ("replicas", VStr "five")] sample_world =
      (Return (VDict [("error", VStr ("Tool execution failed: " ++ cause))]),
       after sample_world 1 [1%Q]).
Proof.
  exact (scale_cluster_type_mismatch (VStr "prod") (VStr "five") sample_world I).
Defined.

Lemma scale_cluster_float_replicas_witness :
  exists d q,
    -2 <= d <= 2 /\ (q == inject_Z (5 + d))%Q
    /\ scale_cluster (VStr "prod") (VFloat (inject_Z 5)) sample_world =
      (Return (VDict [("cluster_id", VStr "prod");
                      ("previous_replicas", if 1 <? 5 + d then VFloat q else VInt 1);
                      ("current_replicas", VFloat (inject_Z 5));
                      ("status", VStr "Scaled")]), after sample_world 1 [1%Q]).
Proof.
  apply (scale_cluster_float_replicas (VStr "prod") 5 sample_world).
  split; [easy | reflexivity].
Defined.

Lemma bound_parameters_witness :
  (exists d, Some (VBool false) = Some d
             /\ local [("service_name", VStr "web-api"); ("force", VBool false)]
                      "force" = d)
  /\ local [("service_name", VStr "web-api"); ("force", VBool false)]
           "service_name" = VStr "web-api".
Proof.
  assert (N : NoDup (map fst (fn_params restart_service_fn))).
  { cbn. repeat constructor; cbn; intuition discriminate. }
  split.
  - exact (bound_parameters restart_service_fn [("service_name", VStr "web-api")] _
             N eq_refl "force" (Some (VBool false)) (or_intror (or_introl eq_refl))).
  - exact (bound_parameters restart_service_fn [("service_name", VStr "web-api")] _
             N eq_refl "service_name" None (or_introl eq_refl)).
Defined.

Lemma keyword_order_is_irrelevant_witness :
  bind_kwargs scale_cluster_fn [("replicas", VInt 5); ("cluster_id", VStr "prod")] =
    Return [("cluster_id", VStr "prod"); ("replicas", VInt 5)].
Proof.
  apply (keyword_order_is_irrelevant scale_cluster_fn
           [("cluster_id", VStr "prod"); ("replicas", VInt 5)]).
  - cbn. repeat constructor; cbn; intuition discriminate.
  - apply perm_swap.
  - reflexivity.
Defined.

Lemma decision_origin_witness :
  (exists chat response ps,
      Gemini.start_chat timeout_model = Return chat
      /\ Gemini.send_message chat "Do something" = Return response
      /\ Gemini.parts response = Return ps
      /\ no_function_call ps
      /\ Gemini.text response = Return "Error interacting with Agent: API Timeout")
  \/ (exists e, engine_fails timeout_model "Do something" e
                /\ "Error interacting with Agent: API Timeout" =
                   "Error interacting with Agent: " ++ exn_str e).
Proof.
  exact (decision_origin timeout_model "Do something" []
           (DChat "Error interacting with Agent: API Timeout") eq_refl).
Defined.

Lemma reset_discards_pending_witness :
  run (Event (Click clear_label) timeout_model) awaiting =
    (Continue, App (SessionState [] None) sample_world []).
Proof.
  exact (reset_discards_pending (Event (Click clear_label) timeout_model) awaiting
           eq_refl).
Defined.

(** A conversation: a request, its rejection, a question. *)
Lemma transcript_is_append_only_witness :
  exists suffix,
    messages (session
      (run_all [Event (Click reject_label) timeout_model;
                Event (Submit "What can you do?") (answering text_response)]
               awaiting)) =
      (messages (session awaiting) ++ suffix)%list
    /\ (length suffix <= 2 * 2)%nat.
Proof.
  apply (transcript_is_append_only
           [Event (Click reject_label) timeout_model;
            Event (Submit "What can you do?") (answering text_response)] awaiting).
  repeat constructor; cbn; discriminate.
Defined.

Lemma world_untouched_without_approval_witness :
  env (run_all [Event (Click reject_label) timeout_model;
                Event (Submit "What can you do?") (answering text_response)]
               awaiting) = sample_world.
Proof.
  apply (world_untouched_without_approval
           [Event (Click reject_label) timeout_model;
            Event (Submit "What can you do?") (answering text_response)] awaiting).
  repeat constructor; cbn; discriminate.
Defined.

Lemma engine_failure_is_shown_witness :
  run (Event (Submit "Do something") timeout_model) (start sample_world) =
    (Continue,
     App (SessionState
            [text_turn user "Do something";
             text_turn assistant "Error interacting with Agent: API Timeout"]
            None)
         sample_world []).
Proof.
  apply (engine_failure_is_shown (Event (Submit "Do something") timeout_model)
           (start sample_world) "Do something" (Exn "Exception" "API Timeout")).
  - reflexivity.
  - reflexivity.
  - discriminate.
  - exact (fails_send_message timeout_model "Do something" _ _ eq_refl eq_refl).
Defined.

Lemma submission_yields_proposal_witness :
  run (Event (Submit "Check health of web-api") (answering two_calls_response))
      (start sample_world) = (Continue, awaiting).
Proof.
  apply (submission_yields_proposal
           (Event (Submit "Check health of web-api") (answering two_calls_response))
           (start sample_world) "Check health of web-api"
           (Gemini.ChatSession (fun _ => Return two_calls_response))
           two_calls_response [Gemini.Part None] [Gemini.Part (Some restart_call)]
           health_call).
  - reflexivity.
  - reflexivity.
  - discriminate.
  - reflexivity.
  - reflexivity.
  - reflexivity.
  - repeat constructor.
Defined.

Lemma failed_execution_is_recorded_witness :
  exists message,
    run (Event (Click approve_label) timeout_model) awaiting_unknown =
      (Continue,
       App (SessionState
              [text_turn user "Drain node n1";
               text_turn assistant (executed_notice unknown_action);
               Turn assistant (VDict [("error", VStr message)])]
              None)
           sample_world [("drain_node", [("node", VStr "n1")])]).
Proof.
  apply (failed_execution_is_recorded (Event (Click approve_label) timeout_model)
           awaiting_unknown unknown_action).
  - reflexivity.
  - reflexivity.
  - left. unfold registered. cbn. intuition discriminate.
Defined.

Lemma input_resumes_after_decision_witness :
  step awaiting (Event (Submit "What can you do?") (answering text_response)) = awaiting
  /\ exists before after,
       messages (session
         (step (step awaiting (Event (Click reject_label) timeout_model))
               (Event (Submit "What can you do?") (answering text_response)))) =
         (messages (session (step awaiting (Event (Click reject_label) timeout_model)))
          ++ text_turn user "What can you do?" :: after)%list
       /\ messages (session (step awaiting (Event (Click reject_label) timeout_model))) =
          (messages (session awaiting) ++ before)%list.
Proof.
  apply (input_resumes_after_decision (Event (Click reject_label) timeout_model)
           (Event (Submit "What can you do?") (answering text_response))
           awaiting health_action "What can you do?").
  - reflexivity.
  - right. reflexivity.
  - reflexivity.
  - discriminate.
Defined.

End FurtherWitnesses.
